(** * cronbeats-python: the ping client's request pipeline

  A shallow embedding of [cronbeats_python/client.py], [http.py] and
  [errors.py].  Python values are an inductive type, exceptions are values
  of a result type, and the effects of a call (the injected transport, the
  global random generator, [time.sleep]) are threaded through an explicit
  [World]. *)

From Stdlib Require Import ZArith String Ascii List Bool Lia.
From Stdlib Require Import Floats.SpecFloat DecimalString.
Import ListNotations.

#[local] Set Warnings "-register-all".

Open Scope string_scope.
Open Scope list_scope.
Open Scope Z_scope.

(* ================================================================= *)
(** ** Python values and builtins *)

Module Py.

(** Python floats are IEEE 754 binary64 numbers. *)
Definition prec : Z := 53.
Definition emax : Z := 1024.
Definition float := spec_float.
Definition float_zero : float := S754_zero false.

(** The values that flow through the client: what [json.loads] produces,
    what an options dict or a request body may hold.  [PObject] stands for
    any other Python object (a set, a class instance, ...). *)
Inductive pyval : Type :=
| PNone
| PBool (b : bool)
| PInt (n : Z)
| PFloat (f : float)
| PStr (s : string)
| PList (l : list pyval)
| PDict (d : list (string * pyval))
| PObject (id : nat).

(** A [Dict[str, Any]]: insertion-ordered, one entry per key. *)
Definition dict := list (string * pyval).

Fixpoint lookup (k : string) (d : dict) : option pyval :=
  match d with
  | [] => None
  | (k', v) :: rest => if String.eqb k k' then Some v else lookup k rest
  end.

(** [d.get(k, default)] *)
Definition get (d : dict) (k : string) (default : pyval) : pyval :=
  match lookup k d with
  | Some v => v
  | None => default
  end.

(** [d[k] = v] *)
Fixpoint setitem (d : dict) (k : string) (v : pyval) : dict :=
  match d with
  | [] => [(k, v)]
  | (k', v') :: rest =>
      if String.eqb k k' then (k, v) :: rest else (k', v') :: setitem rest k v
  end.

(** Exceptions.  [ApiError.raw] is either the decoded payload or the
    exception that the transport raised. *)
Inductive exn : Type :=
| ValidationError (message : string)
| SdkError (message : string)
| ApiError (code : string) (message : string) (http_status : option Z)
           (retryable : bool) (raw : raw_info)
| TypeError
| ValueError
| OverflowError
| RecursionError
| OSError
with raw_info : Type :=
| RawPayload (payload : dict)
| RawException (exc : exn).

(** [isinstance(exc, SdkError)]: [ValidationError] and [ApiError] are
    subclasses of [SdkError]. *)
Definition is_SdkError (e : exn) : bool :=
  match e with
  | ValidationError _ | SdkError _ | ApiError _ _ _ _ _ => true
  | _ => false
  end.

(** [str(exc)] for the exceptions of [errors.py], which all pass their
    message to [Exception.__init__]; the client asks for it on no other
    exception. *)
Definition exn_text (e : exn) : string :=
  match e with
  | ValidationError m | SdkError m | ApiError _ m _ _ _ => m
  | TypeError => "TypeError"
  | ValueError => "ValueError"
  | OverflowError => "OverflowError"
  | RecursionError => "RecursionError"
  | OSError => "OSError"
  end.

Inductive result (A : Type) : Type :=
| Ok (a : A)
| Raised (e : exn).
Arguments Ok {A} a.
Arguments Raised {A} e.

(** What [json.loads(text)] does: it returns the decoded value, raises
    [json.JSONDecodeError] on text that is no JSON document, raises a plain
    [ValueError] on an integer literal longer than the interpreter's digit
    limit, or raises [RecursionError] on nesting deeper than the
    interpreter's stack allows. *)
Inductive loads_outcome : Type :=
| Decoded (v : pyval)
| JSONDecodeError
| DigitLimitExceeded
| NestingTooDeep.

(** How [time.sleep] refuses a delay that is not negative but more than
    the platform takes: [OverflowError] where the delay does not fit the
    clock's type, [OSError] where the system call rejects it. *)
Inductive sleep_error : Type :=
| SleepOverflow
| SleepInvalid.

Definition sleep_exn (e : sleep_error) : exn :=
  match e with
  | SleepOverflow => OverflowError
  | SleepInvalid => OSError
  end.

(** The parts of the Python runtime the client calls and this development
    does not define: the JSON codec, the text-to-number parsers, [repr],
    and which delays [time.sleep] accepts on the platform. *)
Class Runtime : Type := {
  (** [json.loads(text)] *)
  json_loads : string -> loads_outcome;
  (** The text [json.dumps(v, separators=(",", ":"))] gives for a
      serialisable [v]. *)
  json_text : pyval -> string;
  (** [float(s)] on a string; [None] where it raises [ValueError]. *)
  float_of_str : string -> option float;
  (** [int(s)] on a string; [None] where it raises [ValueError]. *)
  int_of_str : string -> option Z;
  (** [str(v)] for floats, lists, dicts and other objects. *)
  repr : pyval -> string;
  (** [time.sleep] accepts every delay from 0 to this many milliseconds. *)
  sleep_max_ms : Z;
  (** How [time.sleep] refuses a longer delay. *)
  sleep_refusal : Z -> sleep_error
}.

(** [str(n)] for an int within the interpreter's digit limit for
    conversions to text (4300 digits by default), as every int is that
    [json.loads] returns. *)
Definition str_of_int (n : Z) : string := NilZero.string_of_int (Z.to_int n).

(** [str(v)] *)
Definition str `{Runtime} (v : pyval) : string :=
  match v with
  | PStr s => s
  | PNone => "None"
  | PBool true => "True"
  | PBool false => "False"
  | PInt n => str_of_int n
  | _ => repr v
  end.

(** [float(n)] for an int: the nearest binary64 number, ties to even;
    [OverflowError] when that is out of range. *)
Definition float_of_int (n : Z) : result float :=
  match binary_normalize prec emax n 0 false with
  | S754_infinity _ => Raised OverflowError
  | f => Ok f
  end.

(** [float(v)] *)
Definition to_float `{Runtime} (v : pyval) : result float :=
  match v with
  | PFloat f => Ok f
  | PInt n => float_of_int n
  | PBool b => float_of_int (if b then 1 else 0)
  | PStr s => match float_of_str s with
              | Some f => Ok f
              | None => Raised ValueError
              end
  | PNone | PList _ | PDict _ | PObject _ => Raised TypeError
  end.

(** [int(f)] for a float: truncation towards zero. *)
Definition int_of_float (f : float) : result Z :=
  match f with
  | S754_zero _ => Ok 0
  | S754_finite s m e =>
      let magnitude := if 0 <=? e then Z.shiftl (Zpos m) e
                       else Z.shiftr (Zpos m) (- e) in
      Ok (if s then - magnitude else magnitude)
  | S754_infinity _ => Raised OverflowError
  | S754_nan => Raised ValueError
  end.

(** [int(v)] *)
Definition to_int `{Runtime} (v : pyval) : result Z :=
  match v with
  | PInt n => Ok n
  | PBool b => Ok (if b then 1 else 0)
  | PFloat f => int_of_float f
  | PStr s => match int_of_str s with
              | Some n => Ok n
              | None => Raised ValueError
              end
  | PNone | PList _ | PDict _ | PObject _ => Raised TypeError
  end.

(** Whether [json.dumps] accepts the value: it raises [TypeError] on an
    object it has no encoding for, at any depth. *)
Fixpoint serialisable (v : pyval) : bool :=
  match v with
  | PObject _ => false
  | PList l => forallb serialisable l
  | PDict d => forallb (fun kv => let '(_, x) := kv in serialisable x) d
  | _ => true
  end.

(** [json.dumps(v, separators=(",", ":"))] *)
Definition json_dumps `{Runtime} (v : pyval) : result string :=
  if serialisable v then Ok (json_text v) else Raised TypeError.

(** [s.rstrip("/")] *)
Fixpoint rstrip_slash (s : string) : string :=
  match s with
  | EmptyString => EmptyString
  | String c rest =>
      match rstrip_slash rest with
      | EmptyString => if Ascii.eqb c "/" then EmptyString else String c EmptyString
      | rest' => String c rest'
      end
  end.

(** [s[:n]] *)
Definition prefix (n : nat) (s : string) : string := String.substring 0 n s.

(** Characters are code points below 256.  [c.isspace()] there: the ASCII
    white space and separators, NEL and the no-break space. *)
Definition isspace (c : ascii) : bool :=
  let n := nat_of_ascii c in
  ((9 <=? n) && (n <=? 13) || (28 <=? n) && (n <=? 32)
   || (n =? 133) || (n =? 160))%nat.

(** [s.lstrip()] *)
Fixpoint lstrip (s : string) : string :=
  match s with
  | EmptyString => EmptyString
  | String c rest => if isspace c then lstrip rest else s
  end.

(** [s.rstrip()] *)
Fixpoint rstrip (s : string) : string :=
  match s with
  | EmptyString => EmptyString
  | String c rest =>
      match rstrip rest with
      | EmptyString => if isspace c then EmptyString else String c EmptyString
      | rest' => String c rest'
      end
  end.

(** [s.strip()] *)
Definition strip (s : string) : string := rstrip (lstrip s).

(** [c.lower()]: the letters A-Z and the accented capitals of Latin-1 move
    32 places up; every other character stays. *)
Definition lower_char (c : ascii) : ascii :=
  let n := nat_of_ascii c in
  if ((65 <=? n) && (n <=? 90)
      || (192 <=? n) && (n <=? 222) && negb (n =? 215))%nat
  then ascii_of_nat (n + 32) else c.

(** [s.lower()] *)
Fixpoint lower (s : string) : string :=
  match s with
  | EmptyString => EmptyString
  | String c rest => String (lower_char c) (lower rest)
  end.

End Py.
Import Py.

(* ================================================================= *)
(** ** A state-and-exception monad for effectful code *)

Definition M (S A : Type) : Type := S -> result A * S.

Definition ret {S A : Type} (a : A) : M S A := fun w => (Ok a, w).

Definition raise {S A : Type} (e : exn) : M S A := fun w => (Raised e, w).

Definition lift {S A : Type} (r : result A) : M S A := fun w => (r, w).

Definition bind {S A B : Type} (m : M S A) (k : A -> M S B) : M S B :=
  fun w =>
    match m w with
    | (Ok a, w') => k a w'
    | (Raised e, w') => (Raised e, w')
    end.

Notation "x <- m ;; k" := (bind m (fun x => k))
  (at level 61, m at next level, right associativity).

(* ================================================================= *)
(** ** [re.fullmatch] for patterns made of repeated character classes *)

Module Re.

(** A character class such as [[a-zA-Z0-9]]: a list of inclusive ranges. *)
Definition char_class := list (ascii * ascii).

(** [cls{n}] *)
Inductive item : Type :=
| Repeat (cls : char_class) (n : nat).

Definition pattern := list item.

Definition in_range (c : ascii) (r : ascii * ascii) : bool :=
  (nat_of_ascii (fst r) <=? nat_of_ascii c)%nat
  && (nat_of_ascii c <=? nat_of_ascii (snd r))%nat.

Definition in_class (cls : char_class) (c : ascii) : bool :=
  existsb (in_range c) cls.

(** Consume exactly [n] characters of the class; the rest of the subject. *)
Fixpoint match_repeat (cls : char_class) (n : nat) (s : string) : option string :=
  match n with
  | O => Some s
  | S n' =>
      match s with
      | EmptyString => None
      | String c rest => if in_class cls c then match_repeat cls n' rest else None
      end
  end.

Fixpoint match_prefix (p : pattern) (s : string) : option string :=
  match p with
  | [] => Some s
  | Repeat cls n :: p' =>
      match match_repeat cls n s with
      | Some rest => match_prefix p' rest
      | None => None
      end
  end.

(** [re.fullmatch(p, s)] as a truth value: the whole subject is consumed. *)
Definition fullmatch (p : pattern) (s : string) : bool :=
  match match_prefix p s with
  | Some EmptyString => true
  | _ => false
  end.

End Re.

(* ================================================================= *)
(** ** http.py *)

Module Http.

Record HttpResponse : Type := {
  status : Z;
  body : string;
  headers : list (string * string)
}.

(** The arguments of one [HttpClient.request] call. *)
Record Request : Type := {
  req_method : string;
  req_url : string;
  req_headers : list (string * string);
  req_body : option string;
  req_timeout_ms : Z
}.

(** What one [request] call does: it returns a response (of any status) or
    raises. *)
Inductive outcome : Type :=
| Responded (response : HttpResponse)
| Failed (exc : exn).

(** The [HttpClient] protocol.  A client is a stateful object: [request]
    gives the outcome and the client's next state. *)
Class HttpClient (T : Type) : Type := {
  request : T -> Request -> outcome * T
}.

End Http.
Import Http.

(* ================================================================= *)
(** ** client.py *)

Module Client.

(** The configuration a [PingClient] holds.  Its [http_client] attribute is
    a stateful object and lives in the [World] below. *)
Record PingClient : Type := {
  job_key : string;
  base_url : string;
  timeout_ms : Z;
  max_retries : Z;
  retry_backoff_ms : Z;
  retry_jitter_ms : Z;
  user_agent : string
}.

(** The dict that [_normalize_success] returns, key by key. *)
Record PingResult : Type := {
  ok : bool;
  action : string;
  jobKey : string;
  timestamp : string;
  processingTimeMs : float;
  nextExpected : option string;
  raw : dict
}.

(** The dict that [_map_error] returns. *)
Record Mapped : Type := {
  code : string;
  retryable : bool
}.

(** How one pass through the body of [while True] ends, when it does not
    raise: [continue] with the new attempt counter, or [return]. *)
Inductive control : Type :=
| Continue (attempt : Z)
| Return (value : PingResult).

(** [ProgressInput = Union[int, Dict[str, Any], None]]; a [bool] is an
    [int] as well, and [isinstance(x, int)] holds of it. *)
Inductive ProgressInput : Type :=
| Seq (n : Z)
| Flag (b : bool)
| Options (d : dict)
| NoInput.

(** The value of [seq] once resolved: an int, or the bool given as one. *)
Inductive seq_value : Type :=
| IntSeq (n : Z)
| BoolSeq (b : bool).

(** [seq < 0]; [True] and [False] compare as 1 and 0. *)
Definition seq_negative (v : seq_value) : bool :=
  match v with
  | IntSeq n => n <? 0
  | BoolSeq _ => false
  end.

(** [f"{seq}"] *)
Definition seq_text (v : seq_value) : string :=
  match v with
  | IntSeq n => str_of_int n
  | BoolSeq true => "True"
  | BoolSeq false => "False"
  end.

(** [r"[a-zA-Z0-9]{8}"] *)
Definition job_key_pattern : Re.pattern :=
  [Re.Repeat [("a"%char, "z"%char); ("A"%char, "Z"%char); ("0"%char, "9"%char)] 8].

Definition _assert_job_key (job_key : string) : result unit :=
  if negb (Re.fullmatch job_key_pattern job_key)
  then Raised (ValidationError "jobKey must be exactly 8 Base62 characters.")
  else Ok tt.

Definition _map_error (status : Z) : Mapped :=
  if status =? 400 then {| code := "VALIDATION_ERROR"; retryable := false |}
  else if status =? 404 then {| code := "NOT_FOUND"; retryable := false |}
  else if status =? 429 then {| code := "RATE_LIMITED"; retryable := true |}
  else if status >=? 500 then {| code := "SERVER_ERROR"; retryable := true |}
  else {| code := "UNKNOWN_ERROR"; retryable := false |}.

(** [m or ""] for an optional string *)
Definition or_empty (m : option string) : string :=
  match m with
  | Some s => s
  | None => ""
  end.

(** [d or {}] for an optional dict *)
Definition or_empty_dict (d : option dict) : dict :=
  match d with
  | Some entries => entries
  | None => []
  end.

Section WithRuntime.
Context {rt : Runtime}.

Definition invalid_json_payload : dict :=
  [("message", PStr "Invalid JSON response")].

(** Only [json.JSONDecodeError] is caught: the other exceptions of
    [json.loads] leave [_safe_json]. *)
Definition _safe_json (raw : string) : result dict :=
  match json_loads raw with
  | Decoded decoded =>
      match decoded with
      | PDict d => Ok d
      | _ => Ok invalid_json_payload
      end
  | JSONDecodeError => Ok invalid_json_payload
  | DigitLimitExceeded => Raised ValueError
  | NestingTooDeep => Raised RecursionError
  end.

Definition _normalize_success (self : PingClient) (action : string)
    (payload : dict) : result PingResult :=
  let processing := get payload "processing_time_ms" (PFloat float_zero) in
  let coerced :=
    match to_float processing with
    | Ok f => Ok f
    | Raised TypeError | Raised ValueError => Ok float_zero
    | Raised e => Raised e
    end in
  match coerced with
  | Raised e => Raised e
  | Ok processing_ms =>
      let next_expected := get payload "next_expected" PNone in
      Ok {| ok := true;
            action := str (get payload "action" (PStr action));
            jobKey := str (get payload "job_key" (PStr (job_key self)));
            timestamp := str (get payload "timestamp" (PStr ""));
            processingTimeMs := processing_ms;
            nextExpected := match next_expected with
                            | PNone => None
                            | v => Some (str v)
                            end;
            raw := payload |}
  end.

(** The body [_request] hands to the transport: nothing for an empty
    payload, else its compact JSON text; any failure of [json.dumps]
    becomes an [SdkError]. *)
Definition encode_body (payload : dict) : result (option string) :=
  if (List.length payload =? 0)%nat then Ok None
  else match json_dumps (PDict payload) with
       | Ok text => Ok (Some text)
       | Raised _ => Raised (SdkError "Failed to encode request payload.")
       end.

Definition build_request (self : PingClient) (path : string)
    (encoded_body : option string) : Request :=
  {| req_method := "POST";
     req_url := String.append (base_url self) path;
     req_headers := [("Content-Type", "application/json");
                     ("Accept", "application/json");
                     ("User-Agent", user_agent self)];
     req_body := encoded_body;
     req_timeout_ms := timeout_ms self |}.

Section WithTransport.
Context {T : Type} {transport : HttpClient T}.

(** Everything outside the client that a call reads or changes: the
    injected transport, the transport calls made so far (oldest first), the
    values the global random generator will give, and the sleeps taken so
    far, in milliseconds (oldest first). *)
Record World : Type := {
  http_client : T;
  calls : list Request;
  entropy : nat -> Z;
  slept : list Z
}.

(** [self.http_client.request(...)] *)
Definition http_call (req : Request) (w : World) : outcome * World :=
  let (o, t') := request (http_client w) req in
  (o, {| http_client := t'; calls := calls w ++ [req];
         entropy := entropy w; slept := slept w |}).

(** [random.randint(a, b)]: [a] plus a value below [b - a + 1], taken from
    the generator; [ValueError] on an empty range. *)
Definition randint (a b : Z) : M World Z :=
  fun w =>
    if b <? a then (Raised ValueError, w)
    else (Ok (a + entropy w O mod (b - a + 1)),
          {| http_client := http_client w; calls := calls w;
             entropy := fun i => entropy w (S i); slept := slept w |}).

(** [time.sleep(ms / 1000.0)], with the delay kept as the integer number
    of milliseconds the source divides by [1000.0].  [time.sleep] raises
    [ValueError] on a negative delay, and [OverflowError] or [OSError] on
    one longer than the platform takes. *)
Definition time_sleep (ms : Z) : M World unit :=
  fun w =>
    if ms <? 0 then (Raised ValueError, w)
    else if sleep_max_ms <? ms then (Raised (sleep_exn (sleep_refusal ms)), w)
    else (Ok tt,
          {| http_client := http_client w; calls := calls w;
             entropy := entropy w; slept := slept w ++ [ms] |}).

Definition _sleep_with_backoff (self : PingClient) (attempt : Z) : M World unit :=
  let base_ms := retry_backoff_ms self * 2 ^ Z.max 0 (attempt - 1) in
  jitter_ms <- randint 0 (Z.max 0 (retry_jitter_ms self)) ;;
  time_sleep (base_ms + jitter_ms).

(** [attempt += 1; self._sleep_with_backoff(attempt); continue] *)
Definition retry (self : PingClient) (attempt : Z) : M World control :=
  let attempt := attempt + 1 in
  _ <- _sleep_with_backoff self attempt ;;
  ret (Continue attempt).

(** The loop body once the transport has returned a response: the lines
    from [if 200 <= status < 300] to the final [raise]. *)
Definition handle_response (self : PingClient) (action : string)
    (attempt : Z) (status : Z) (decoded : dict) : M World control :=
  if (200 <=? status) && (status <? 300) then
    value <- lift (_normalize_success self action decoded) ;;
    ret (Return value)
  else
    let mapped := _map_error status in
    if retryable mapped && (attempt <? max_retries self) then
      retry self attempt
    else
      raise (ApiError (code mapped)
                      (str (get decoded "message" (PStr "Request failed")))
                      (Some status) (retryable mapped) (RawPayload decoded)).

(** The [except SdkError as exc] handler. *)
Definition handle_failure (self : PingClient) (attempt : Z) (exc : exn)
    : M World control :=
  if attempt >=? max_retries self then
    raise (ApiError "NETWORK_ERROR" (exn_text exc) None true (RawException exc))
  else retry self attempt.

(** One pass through the body of the [while True] loop of [_request].  An
    exception of the transport that is no [SdkError] is not caught, nor is
    one that leaves [_safe_json]. *)
Definition iteration (self : PingClient) (action : string) (req : Request)
    (attempt : Z) : M World control :=
  fun w =>
    match http_call req w with
    | (Failed exc, w1) =>
        if is_SdkError exc then handle_failure self attempt exc w1
        else (Raised exc, w1)
    | (Responded response, w1) =>
        match _safe_json (body response) with
        | Raised e => (Raised e, w1)
        | Ok decoded =>
            let status := status response in
            handle_response self action attempt status decoded w1
        end
    end.

(** The [while True] loop, run for at most [fuel] passes; [None] when the
    passes run out before the loop returns or raises. *)
Fixpoint request_loop (fuel : nat) (self : PingClient) (action : string)
    (req : Request) (attempt : Z) (w : World) : option (result PingResult * World) :=
  match fuel with
  | O => None
  | S fuel' =>
      match iteration self action req attempt w with
      | (Ok (Continue attempt'), w') => request_loop fuel' self action req attempt' w'
      | (Ok (Return value), w') => Some (Ok value, w')
      | (Raised e, w') => Some (Raised e, w')
      end
  end.

Definition _request (fuel : nat) (self : PingClient) (action : string)
    (path : string) (body : option dict) (w : World)
    : option (result PingResult * World) :=
  let payload := or_empty_dict body in
  match encode_body payload with
  | Raised e => Some (Raised e, w)
  | Ok encoded_body =>
      request_loop fuel self action (build_request self path encoded_body) 0 w
  end.

Definition __init__ (job_key : string) (options : option dict) : M World PingClient :=
  let opts := or_empty_dict options in
  _ <- lift (_assert_job_key job_key) ;;
  let base_url := rstrip_slash (str (get opts "base_url" (PStr "https://cronbeats.io"))) in
  timeout_ms <- lift (to_int (get opts "timeout_ms" (PInt 5000))) ;;
  max_retries <- lift (to_int (get opts "max_retries" (PInt 2))) ;;
  retry_backoff_ms <- lift (to_int (get opts "retry_backoff_ms" (PInt 250))) ;;
  retry_jitter_ms <- lift (to_int (get opts "retry_jitter_ms" (PInt 100))) ;;
  let user_agent := str (get opts "user_agent" (PStr "cronbeats-python-sdk/0.1.0")) in
  ret {| job_key := job_key; base_url := base_url; timeout_ms := timeout_ms;
         max_retries := max_retries; retry_backoff_ms := retry_backoff_ms;
         retry_jitter_ms := retry_jitter_ms; user_agent := user_agent |}.

Definition ping (fuel : nat) (self : PingClient) (w : World) :=
  _request fuel self "ping" (String.append "/ping/" (job_key self)) None w.

Definition start (fuel : nat) (self : PingClient) (w : World) :=
  _request fuel self "start"
           (String.append "/ping/" (String.append (job_key self) "/start")) None w.

(** ['Status must be "success" or "fail".'] *)
Definition status_error_message : string :=
  String.append "Status must be "
    (String "034" (String.append "success"
       (String "034" (String.append " or "
          (String "034" (String.append "fail" (String "034" "."))))))).

(** [end(status)]; [end] is a keyword here. *)
Definition end_ (fuel : nat) (self : PingClient) (status : string) (w : World)
    : option (result PingResult * World) :=
  let status_value := lower (strip status) in
  if negb (String.eqb status_value "success" || String.eqb status_value "fail")
  then Some (Raised (ValidationError status_error_message), w)
  else _request fuel self "end"
         (String.append "/ping/"
            (String.append (job_key self)
               (String.append "/end/" status_value)))
         None w.

Definition success (fuel : nat) (self : PingClient) (w : World) :=
  end_ fuel self "success" w.

Definition fail (fuel : nat) (self : PingClient) (w : World) :=
  end_ fuel self "fail" w.

(** What [progress] computes before it validates: the pair [(seq, msg)]. *)
Definition resolve_progress (seq_or_options : ProgressInput)
    (message : option string) : result (option seq_value * option string) :=
  match seq_or_options with
  | Seq n => Ok (Some (IntSeq n), message)
  | Flag b => Ok (Some (BoolSeq b), message)
  | Options d =>
      let seq_raw := get d "seq" PNone in
      let seq := match seq_raw with
                 | PNone => Ok None
                 | v => match to_int v with
                        | Ok n => Ok (Some (IntSeq n))
                        | Raised e => Raised e
                        end
                 end in
      match seq with
      | Raised e => Raised e
      | Ok seq =>
          Ok (seq, Some (str (get d "message" (PStr (or_empty message)))))
      end
  | NoInput => Ok (None, message)
  end.

Definition progress (fuel : nat) (self : PingClient)
    (seq_or_options : ProgressInput) (message : option string) (w : World)
    : option (result PingResult * World) :=
  match resolve_progress seq_or_options message with
  | Raised e => Some (Raised e, w)
  | Ok (seq, msg) =>
      if match seq with
         | Some v => seq_negative v
         | None => false
         end
      then Some (Raised (ValidationError "Progress seq must be a non-negative integer."), w)
      else
        let safe_msg := or_empty msg in
        let safe_msg := if (255 <? String.length safe_msg)%nat
                        then prefix 255 safe_msg else safe_msg in
        match seq with
        | Some v =>
            _request fuel self "progress"
              (String.append "/ping/"
                 (String.append (job_key self)
                    (String.append "/progress/" (seq_text v))))
              (Some [("message", PStr safe_msg)]) w
        | None =>
            let body := [("message", PStr safe_msg)] in
            let body := match seq_or_options with
                        | Seq n => setitem body "progress" (PInt n)
                        | Flag b => setitem body "progress" (PBool b)
                        | _ => body
                        end in
            _request fuel self "progress"
              (String.append "/ping/" (String.append (job_key self) "/progress"))
              (Some body) w
        end
  end.

End WithTransport.
End WithRuntime.

End Client.
Import Client.

(* ================================================================= *)
(** ** tests/test_ping_client.py: the scripted transport *)

Module Stub.

Record StubHttpClient : Type := {
  responses : list HttpResponse;
  network_failures : Z;
  seen : list Request
}.

Definition stub_request (self : StubHttpClient) (req : Request)
    : outcome * StubHttpClient :=
  let seen' := seen self ++ [req] in
  if 0 <? network_failures self then
    (Failed (SdkError "socket timeout"),
     {| responses := responses self;
        network_failures := network_failures self - 1;
        seen := seen' |})
  else
    match responses self with
    | [] =>
        (Responded {| status := 200; body := "{}"; headers := [] |},
         {| responses := []; network_failures := network_failures self;
            seen := seen' |})
    | first :: rest =>
        (Responded first,
         {| responses := rest; network_failures := network_failures self;
            seen := seen' |})
    end.

#[export] Instance StubHttpClient_HttpClient : HttpClient StubHttpClient :=
  {| request := stub_request |}.

(** A transport on which every call raises [SdkError]. *)
Record DeadHttpClient : Type := { attempts_seen : nat }.

#[export] Instance DeadHttpClient_HttpClient : HttpClient DeadHttpClient :=
  {| request := fun self _ =>
       (Failed (SdkError "connection refused"),
        {| attempts_seen := S (attempts_seen self) |}) |}.

(** *** A small runtime to run the examples on *)

Definition double_quote : ascii := "034"%char.

Definition quoted (s : string) : string :=
  String double_quote (String.append s (String double_quote "")).

Definition concat_all (parts : list string) : string :=
  fold_right String.append "" parts.

(** Compact JSON text for values made of [None], booleans, ints, strings
    without characters to escape, lists and dicts; floats and other objects
    are not rendered. *)
Fixpoint sample_json_text (v : pyval) : string :=
  match v with
  | PNone => "null"
  | PBool true => "true"
  | PBool false => "false"
  | PInt n => str_of_int n
  | PStr s => quoted s
  | PList l =>
      let fix items (l : list pyval) : string :=
        match l with
        | [] => ""
        | [x] => sample_json_text x
        | x :: rest => concat_all [sample_json_text x; ","; items rest]
        end in
      concat_all ["["; items l; "]"]
  | PDict d =>
      let fix entries (d : list (string * pyval)) : string :=
        match d with
        | [] => ""
        | [(k, x)] => concat_all [quoted k; ":"; sample_json_text x]
        | (k, x) :: rest =>
            concat_all [quoted k; ":"; sample_json_text x; ","; entries rest]
        end in
      concat_all ["{"; entries d; "}"]
  | PFloat _ | PObject _ => ""
  end.

(** 8.25 as a binary64 number: 4644337115725824 * 2^-49. *)
Definition float_8_25 : float := S754_finite false 4644337115725824 (-49).

Definition success_payload : dict :=
  [("processing_time_ms", PFloat float_8_25); ("job_key", PStr "abc123de")].

Definition success_text : string :=
  concat_all ["{"; quoted "processing_time_ms"; ":8.25,"; quoted "job_key"; ":";
              quoted "abc123de"; "}"].

Definition not_found_payload : dict :=
  [("status", PStr "error"); ("message", PStr "Job not found")].

Definition not_found_text : string := sample_json_text (PDict not_found_payload).

(** A payload whose [processing_time_ms] is the integer 2^1024. *)
Definition huge_payload : dict := [("processing_time_ms", PInt (2 ^ 1024))].

Definition huge_text : string := sample_json_text (PDict huge_payload).

(** 5000 times the digit 1: an integer literal over the digit limit. *)
Definition long_integer_text : string :=
  string_of_list_ascii (repeat "1"%char 5000).

(** 100000 opening brackets: nesting deeper than the stack allows. *)
Definition deep_nesting_text : string :=
  string_of_list_ascii (repeat "["%char (100 * 1000)).

Definition is_digit (c : ascii) : bool :=
  ((48 <=? nat_of_ascii c) && (nat_of_ascii c <=? 57))%nat.

(** The documents the sample decoder knows; any other text is malformed. *)
Definition documents : list (string * pyval) :=
  [("{}", PDict []);
   ("[]", PList []);
   (success_text, PDict success_payload);
   (not_found_text, PDict not_found_payload);
   (huge_text, PDict huge_payload)].

Fixpoint find_document (text : string) (docs : list (string * pyval)) : option pyval :=
  match docs with
  | [] => None
  | (t, v) :: rest => if String.eqb text t then Some v else find_document text rest
  end.

(** The sample decoder: a run of more than 4300 digits is over the digit
    limit, a run of more than 1000 opening brackets is too deep, a known
    document decodes, and anything else is no JSON. *)
Definition sample_loads (text : string) : loads_outcome :=
  let chars := list_ascii_of_string text in
  if forallb is_digit chars && (4300 <? List.length chars)%nat
  then DigitLimitExceeded
  else if forallb (Ascii.eqb "["%char) chars && (1000 <? List.length chars)%nat
  then NestingTooDeep
  else match find_document text documents with
       | Some v => Decoded v
       | None => JSONDecodeError
       end.

Definition sample_runtime : Runtime :=
  {| json_loads := sample_loads;
     json_text := sample_json_text;
     float_of_str := fun _ => None;
     int_of_str := fun s => option_map Z.of_int (NilZero.int_of_string s);
     repr := sample_json_text;
     sleep_max_ms := 9223372036854;
     sleep_refusal := fun ms =>
       if ms <? 9223372036855 then SleepInvalid else SleepOverflow |}.

Definition sample_client (retries backoff jitter : Z) : PingClient :=
  {| job_key := "abc123de"; base_url := "https://cronbeats.io";
     timeout_ms := 5000; max_retries := retries; retry_backoff_ms := backoff;
     retry_jitter_ms := jitter; user_agent := "cronbeats-python-sdk/0.1.0" |}.

Definition stub_world (responses : list HttpResponse) (failures : Z)
    : @World StubHttpClient :=
  {| http_client := {| responses := responses; network_failures := failures;
                       seen := [] |};
     calls := []; entropy := fun _ => 0; slept := [] |}.

Definition dead_world : @World DeadHttpClient :=
  {| http_client := {| attempts_seen := O |};
     calls := []; entropy := fun _ => 0; slept := [] |}.

Definition respond (status : Z) (body : string) : HttpResponse :=
  {| status := status; body := body; headers := [] |}.

(** A transport that answers every call with a 503. *)
Record BusyHttpClient : Type := { busy_calls : nat }.

#[export] Instance BusyHttpClient_HttpClient : HttpClient BusyHttpClient :=
  {| request := fun self _ =>
       (Responded (respond 503 "{}"), {| busy_calls := S (busy_calls self) |}) |}.

(** A transport on which every call raises a [ValueError], as a reply
    that is not UTF-8 makes [decode] do in [UrllibHttpClient]. *)
Record BrokenHttpClient : Type := { broken_calls : nat }.

#[export] Instance BrokenHttpClient_HttpClient : HttpClient BrokenHttpClient :=
  {| request := fun self _ =>
       (Failed ValueError, {| broken_calls := S (broken_calls self) |}) |}.

Definition busy_world : @World BusyHttpClient :=
  {| http_client := {| busy_calls := O |};
     calls := []; entropy := fun _ => 0; slept := [] |}.

Definition broken_world : @World BrokenHttpClient :=
  {| http_client := {| broken_calls := O |};
     calls := []; entropy := fun _ => 0; slept := [] |}.

(** The request [ping()] makes for the sample client. *)
Definition ping_request (self : PingClient) : Request :=
  build_request self "/ping/abc123de" None.

(** The scripts of the tests: a 404, a 400, a 429 then a 200, one network
    failure then a 200. *)
Definition world_404 : @World StubHttpClient :=
  stub_world [respond 404 not_found_text] 0.

Definition world_400 : @World StubHttpClient :=
  stub_world [respond 400 "{}"] 0.

Definition world_429_then_200 : @World StubHttpClient :=
  stub_world [respond 429 "{}"; respond 200 success_text] 0.

Definition world_failure_then_200 : @World StubHttpClient :=
  stub_world [respond 200 success_text] 1.

(** A 200 whose body is no JSON document. *)
Definition world_garbled_200 : @World StubHttpClient :=
  stub_world [respond 200 "<html>"] 0.

(** A 200 whose [processing_time_ms] is the integer 2^1024. *)
Definition world_huge_200 : @World StubHttpClient :=
  stub_world [respond 200 huge_text] 0.

(** A 404 and a 200 whose body is an integer literal of 5000 digits. *)
Definition world_404_long_integer : @World StubHttpClient :=
  stub_world [respond 404 long_integer_text] 0.

Definition world_200_long_integer : @World StubHttpClient :=
  stub_world [respond 200 long_integer_text] 0.

(** A 200 whose body is 100000 opening brackets. *)
Definition world_200_deep_nesting : @World StubHttpClient :=
  stub_world [respond 200 deep_nesting_text] 0.

(** The stub's state after one call with [req]. *)
Definition stub_after (w : @World StubHttpClient) (req : Request) : StubHttpClient :=
  snd (stub_request (http_client w) req).

(** A body that [json.dumps] rejects. *)
Definition unencodable_body : dict := [("message", PObject 0)].

(** 300 times the letter x. *)
Definition long_message : string := string_of_list_ascii (repeat "x"%char 300).

End Stub.

(* ================================================================= *)
(** ** The vocabulary of the specification *)

(** An ASCII letter or digit. *)
Definition is_alnum (c : ascii) : bool :=
  let n := nat_of_ascii c in
  ((65 <=? n) && (n <=? 90) || (97 <=? n) && (n <=? 122)
   || (48 <=? n) && (n <=? 57))%nat.

(** The job identifier format: exactly 8 characters, each an ASCII letter
    or digit. *)
Definition job_key_ok (s : string) : bool :=
  (String.length s =? 8)%nat && forallb is_alnum (list_ascii_of_string s).

(** The status classification table, row by row. *)
Inductive classified : Z -> string -> bool -> Prop :=
| row_400 : classified 400 "VALIDATION_ERROR" false
| row_404 : classified 404 "NOT_FOUND" false
| row_429 : classified 429 "RATE_LIMITED" true
| row_5xx : forall status, 500 <= status -> classified status "SERVER_ERROR" true
| row_other : forall status,
    status <> 400 -> status <> 404 -> status <> 429 -> status < 500 ->
    classified status "UNKNOWN_ERROR" false.

Section Vocabulary.
Context {rt : Runtime} {T : Type} {transport : HttpClient T}.

(** The response body decodes to a JSON object. *)
Definition valid_json_object (text : string) : bool :=
  match json_loads text with
  | Decoded (PDict _) => true
  | _ => false
  end.

(** [json.loads] returns on the text or raises [JSONDecodeError]: nothing
    leaves [_safe_json]. *)
Definition decodes (text : string) : bool :=
  match _safe_json text with
  | Ok _ => true
  | Raised _ => false
  end.

(** The payload the loop works with for a body that [decodes]: the decoded
    object, else the placeholder. *)
Definition payload_of (text : string) : dict :=
  match _safe_json text with
  | Ok d => d
  | Raised _ => invalid_json_payload
  end.

(** The outcome is a failure of the transport or a response whose body
    [decodes]. *)
Definition outcome_decodes (o : outcome) : bool :=
  match o with
  | Failed _ => true
  | Responded response => decodes (body response)
  end.

(** The bodies the public methods hand to [_request]: none, or the single
    entry [message] with a string. *)
Definition public_body (payload : option dict) : bool :=
  match payload with
  | None => true
  | Some [(k, PStr _)] => String.eqb k "message"
  | Some _ => false
  end.


(** The outcomes the specification calls retryable: an HTTP 429 response, or a
    failure of the transport itself. *)
Definition retryable_outcome (o : outcome) : bool :=
  match o with
  | Failed exc => is_SdkError exc
  | Responded response => status response =? 429
  end.

(** The jitter the next draw of the random generator gives. *)
Definition jitter_draw (self : PingClient) (w : @World T) : Z :=
  entropy w O mod (Z.max 0 (retry_jitter_ms self) + 1).

(** The world once the jitter has been drawn. *)
Definition after_draw (w : @World T) : @World T :=
  {| http_client := http_client w; calls := calls w;
     entropy := fun i => entropy w (S i); slept := slept w |}.

(** The world once the transport has been called with [req] and has moved
    to state [t']. *)
Definition after_call (req : Request) (t' : T) (w : @World T) : @World T :=
  {| http_client := t'; calls := calls w ++ [req];
     entropy := entropy w; slept := slept w |}.

(** The world once [time.sleep] has returned from a sleep of [ms]
    milliseconds. *)
Definition after_sleep (ms : Z) (w : @World T) : @World T :=
  {| http_client := http_client w; calls := calls w;
     entropy := entropy w; slept := slept w ++ [ms] |}.

(** The delay [_sleep_with_backoff] computes, in milliseconds. *)
Definition delay_ms (self : PingClient) (attempt : Z) (w : @World T) : Z :=
  retry_backoff_ms self * 2 ^ Z.max 0 (attempt - 1) + jitter_draw self w.

(** The transport calls made between two worlds. *)
Definition invocations (before after : @World T) : Z :=
  Z.of_nat (List.length (calls after)) - Z.of_nat (List.length (calls before)).

(** The sleeps taken between two worlds. *)
Definition sleeps (before after : @World T) : Z :=
  Z.of_nat (List.length (slept after)) - Z.of_nat (List.length (slept before)).

(** The time slept so far, in milliseconds. *)
Definition total_slept (w : @World T) : Z := fold_right Z.add 0 (slept w).

(** The string ends in a slash. *)
Fixpoint ends_with_slash (s : string) : bool :=
  match s with
  | EmptyString => false
  | String c EmptyString => Ascii.eqb c "/"
  | String _ rest => ends_with_slash rest
  end.

(** Every numeric option converts with [int()]. *)
Definition numeric_options_ok (opts : dict) : bool :=
  match to_int (get opts "timeout_ms" (PInt 5000)),
        to_int (get opts "max_retries" (PInt 2)),
        to_int (get opts "retry_backoff_ms" (PInt 250)),
        to_int (get opts "retry_jitter_ms" (PInt 100)) with
  | Ok _, Ok _, Ok _, Ok _ => true
  | _, _, _, _ => false
  end.

(** [float()] does not overflow on the payload's [processing_time_ms]. *)
Definition processing_time_fits (payload : dict) : bool :=
  match to_float (get payload "processing_time_ms" (PFloat float_zero)) with
  | Raised OverflowError => false
  | _ => true
  end.

(** The message [progress] sends: [msg or ""], cut to 255 characters. *)
Definition sent_message (message : option string) : string :=
  let safe_msg := or_empty message in
  if (255 <? String.length safe_msg)%nat then prefix 255 safe_msg else safe_msg.

End Vocabulary.

(* ================================================================= *)
(** ** Status classification *)

Lemma geb_true_iff (a b : Z) : (a >=? b) = true <-> b <= a.
Proof. rewrite Z.geb_leb. apply Z.leb_le. Qed.

Lemma geb_false_iff (a b : Z) : (a >=? b) = false <-> a < b.
Proof. rewrite Z.geb_leb. apply Z.leb_gt. Qed.

Lemma map_error_row (status : Z) :
  classified status (code (_map_error status)) (retryable (_map_error status)).
Proof.
  unfold _map_error.
  destruct (Z.eqb_spec status 400) as [-> | H400]; [apply row_400 |].
  destruct (Z.eqb_spec status 404) as [-> | H404]; [apply row_404 |].
  destruct (Z.eqb_spec status 429) as [-> | H429]; [apply row_429 |].
  destruct (status >=? 500) eqn:H500.
  - apply row_5xx. now apply geb_true_iff.
  - apply row_other; trivial. now apply geb_false_iff.
Qed.

Lemma classified_functional (status : Z) (c : string) (r : bool) :
  classified status c r -> _map_error status = {| code := c; retryable := r |}.
Proof.
  intros H; inversion H; subst; try reflexivity; unfold _map_error.
  - destruct (Z.eqb_spec status 400); [lia |].
    destruct (Z.eqb_spec status 404); [lia |].
    destruct (Z.eqb_spec status 429); [lia |].
    assert (E : (status >=? 500) = true) by now apply geb_true_iff.
    now rewrite E.
  - destruct (Z.eqb_spec status 400); [contradiction |].
    destruct (Z.eqb_spec status 404); [contradiction |].
    destruct (Z.eqb_spec status 429); [contradiction |].
    assert (E : (status >=? 500) = false) by now apply geb_false_iff.
    now rewrite E.
Qed.

(** C1.  Status classification is a total function of the HTTP status
    alone: for every integer status the pair it returns is a row of the
    table (400, 404, 429, at least 500, anything else), and it is the only
    pair the table allows for that status, so the same status always gives
    the same pair. *)
Theorem map_error_classification : forall status : Z,
  classified status (code (_map_error status)) (retryable (_map_error status))
  /\ (forall c r, classified status c r ->
        _map_error status = {| code := c; retryable := r |}).
Proof.
  intros status; split.
  - apply map_error_row.
  - intros c r; apply classified_functional.
Qed.

Example map_error_3xx_401_403 :
  _map_error 302 = {| code := "UNKNOWN_ERROR"; retryable := false |}
  /\ _map_error 401 = {| code := "UNKNOWN_ERROR"; retryable := false |}
  /\ _map_error 403 = {| code := "UNKNOWN_ERROR"; retryable := false |}
  /\ _map_error 503 = {| code := "SERVER_ERROR"; retryable := true |}.
Proof. repeat split. Qed.

(* ================================================================= *)
(** ** The job identifier *)

Lemma in_job_key_class (c : ascii) :
  Re.in_class [("a"%char, "z"%char); ("A"%char, "Z"%char); ("0"%char, "9"%char)] c
  = is_alnum c.
Proof.
  destruct c as [[] [] [] [] [] [] [] []]; reflexivity.
Qed.

Lemma match_repeat_whole (cls : Re.char_class) (n : nat) : forall s : string,
  match Re.match_repeat cls n s with
  | Some EmptyString => true
  | _ => false
  end
  = ((String.length s =? n)%nat
     && forallb (Re.in_class cls) (list_ascii_of_string s)).
Proof.
  induction n as [| n IH]; intros [| c rest]; simpl; try reflexivity.
  destruct (Re.in_class cls c); simpl.
  - apply IH.
  - now rewrite andb_false_r.
Qed.

Lemma forallb_ext_eq {A : Type} (f g : A -> bool) (l : list A) :
  (forall a, f a = g a) -> forallb f l = forallb g l.
Proof.
  intros E; induction l as [| a l IH]; simpl; [reflexivity |].
  now rewrite E, IH.
Qed.

(** [re.fullmatch(r"[a-zA-Z0-9]{8}", s)] holds exactly for the strings of
    8 ASCII letters or digits. *)
Lemma fullmatch_job_key (s : string) :
  Re.fullmatch job_key_pattern s = job_key_ok s.
Proof.
  unfold Re.fullmatch, job_key_pattern, job_key_ok.
  cbn [Re.match_prefix].
  rewrite <- (forallb_ext_eq _ _ _ in_job_key_class).
  rewrite <- match_repeat_whole.
  destruct (Re.match_repeat _ 8 s) as [[| ? ?] |]; reflexivity.
Qed.

Lemma assert_job_key_spec (s : string) :
  _assert_job_key s =
  if job_key_ok s then Ok tt
  else Raised (ValidationError "jobKey must be exactly 8 Base62 characters.").
Proof.
  unfold _assert_job_key. rewrite fullmatch_job_key.
  now destruct (job_key_ok s).
Qed.

Section Construction.
Context {rt : Runtime} {T : Type} {transport : HttpClient T}.

(** C8.  Whatever the options, a job identifier that is not exactly 8
    ASCII letters or digits makes construction raise [ValidationError] with
    the world untouched (no transport call); an identifier of that form
    passes the check, and construction succeeds and stores it whenever the
    numeric options convert with [int()], as they do when no options are
    given. *)
Theorem job_key_validation :
  forall (key : string) (options : option dict) (w : @World T),
    (job_key_ok key = false ->
       __init__ key options w =
       (Raised (ValidationError "jobKey must be exactly 8 Base62 characters."), w))
    /\ (job_key_ok key = true ->
        numeric_options_ok (or_empty_dict options) = true ->
        exists self, __init__ key options w = (Ok self, w) /\ job_key self = key)
    /\ (job_key_ok key = true ->
        exists self, __init__ key None w = (Ok self, w) /\ job_key self = key).
Proof.
  intros key options w.
  assert (G : forall opts, job_key_ok key = true ->
            numeric_options_ok (or_empty_dict opts) = true ->
            exists self, __init__ key opts w = (Ok self, w) /\ job_key self = key).
  { intros opts Hkey Hopts.
    unfold __init__, bind, lift, ret. rewrite assert_job_key_spec, Hkey.
    unfold numeric_options_ok in Hopts.
    destruct (to_int (get (or_empty_dict opts) "timeout_ms" (PInt 5000)));
      [| discriminate].
    destruct (to_int (get (or_empty_dict opts) "max_retries" (PInt 2)));
      [| discriminate].
    destruct (to_int (get (or_empty_dict opts) "retry_backoff_ms" (PInt 250)));
      [| discriminate].
    destruct (to_int (get (or_empty_dict opts) "retry_jitter_ms" (PInt 100)));
      [| discriminate].
    eexists; split; reflexivity. }
  repeat split.
  - intros Hkey. unfold __init__, bind, lift.
    now rewrite assert_job_key_spec, Hkey.
  - apply G.
  - intros Hkey. now apply G.
Qed.

End Construction.

(* ================================================================= *)
(** ** The request pipeline *)

Section Pipeline.
Context {rt : Runtime} {T : Type} {transport : HttpClient T}.

Implicit Types (self : PingClient) (w : @World T) (req : Request).

Lemma http_call_spec req w (o : outcome) (t' : T) :
  request (http_client w) req = (o, t') ->
  http_call req w = (o, after_call req t' w).
Proof. unfold http_call; intros ->; reflexivity. Qed.

Lemma jitter_draw_range self w :
  0 <= jitter_draw self w <= Z.max 0 (retry_jitter_ms self).
Proof.
  unfold jitter_draw.
  pose proof (Z.mod_pos_bound (entropy w O) (Z.max 0 (retry_jitter_ms self) + 1)).
  lia.
Qed.

Lemma randint_jitter self w :
  randint 0 (Z.max 0 (retry_jitter_ms self)) w
  = (Ok (jitter_draw self w), after_draw w).
Proof.
  unfold randint, jitter_draw, after_draw.
  assert (E : (Z.max 0 (retry_jitter_ms self) <? 0) = false)
    by (apply Z.ltb_ge; lia).
  rewrite E, Z.sub_0_r, Z.add_0_l. reflexivity.
Qed.

(** What [_sleep_with_backoff] does, by the delay it computes. *)
Lemma sleep_with_backoff_spec self (attempt : Z) w :
  _sleep_with_backoff self attempt w =
  if delay_ms self attempt w <? 0 then (Raised ValueError, after_draw w)
  else if sleep_max_ms <? delay_ms self attempt w
       then (Raised (sleep_exn (sleep_refusal (delay_ms self attempt w))),
             after_draw w)
       else (Ok tt, after_sleep (delay_ms self attempt w) (after_draw w)).
Proof.
  unfold _sleep_with_backoff, bind. rewrite randint_jitter.
  unfold time_sleep, delay_ms, after_sleep.
  destruct (_ <? 0); [reflexivity |].
  destruct (sleep_max_ms <? _); reflexivity.
Qed.

Lemma sleep_with_backoff_calls self (attempt : Z) w :
  calls (snd (_sleep_with_backoff self attempt w)) = calls w.
Proof.
  rewrite sleep_with_backoff_spec.
  destruct (_ <? 0); [reflexivity |].
  destruct (sleep_max_ms <? _); reflexivity.
Qed.

(** [retry] continues with the next attempt number or raises what the sleep
    raised; it makes no transport call. *)
Lemma retry_spec self (attempt : Z) w :
  calls (snd (retry self attempt w)) = calls w
  /\ forall c, fst (retry self attempt w) = Ok c -> c = Continue (attempt + 1).
Proof.
  unfold retry, bind, ret.
  pose proof (sleep_with_backoff_calls self (attempt + 1) w) as Hc.
  destruct (_sleep_with_backoff self (attempt + 1) w) as [[[] | e] w1];
    simpl in *; split; trivial; intros c E; congruence.
Qed.

(** One pass of the loop makes exactly one transport call, and continues
    only with the attempt counter one higher and still within the budget. *)
Lemma iteration_spec self (action : string) req (attempt : Z) w :
  calls (snd (iteration self action req attempt w)) = calls w ++ [req]
  /\ forall a', fst (iteration self action req attempt w) = Ok (Continue a') ->
       a' = attempt + 1 /\ attempt < max_retries self.
Proof.
  unfold iteration.
  destruct (request (http_client w) req) as [o t'] eqn:Hreq.
  rewrite (http_call_spec _ _ _ _ Hreq).
  assert (Hc : calls (after_call req t' w) = calls w ++ [req]) by reflexivity.
  destruct o as [response | exc].
  - destruct (_safe_json (body response)) as [decoded | e];
      [| simpl; split; trivial; intros a' E; discriminate].
    cbv zeta. unfold handle_response.
    destruct ((200 <=? status response) && (status response <? 300)).
    + unfold bind, lift, ret.
      destruct (_normalize_success self action decoded); simpl; split; trivial;
        intros a' E; discriminate.
    + destruct (retryable (_map_error (status response))); simpl.
      * destruct (attempt <? max_retries self) eqn:Hlt.
        -- destruct (retry_spec self attempt (after_call req t' w)) as [Hr1 Hr2].
           split; [now rewrite Hr1 |].
           intros a' E. apply Hr2 in E. apply Z.ltb_lt in Hlt.
           split; [congruence | assumption].
        -- unfold raise; simpl; split; trivial; intros a' E; discriminate.
      * unfold raise; simpl; split; trivial; intros a' E; discriminate.
  - destruct (is_SdkError exc); [| simpl; split; trivial; intros a' E; discriminate].
    unfold handle_failure.
    destruct (attempt >=? max_retries self) eqn:Hge.
    + unfold raise; simpl; split; trivial; intros a' E; discriminate.
    + destruct (retry_spec self attempt (after_call req t' w)) as [Hr1 Hr2].
      split; [now rewrite Hr1 |].
      intros a' E. apply Hr2 in E. apply geb_false_iff in Hge.
      split; [congruence | assumption].
Qed.

(** The loop is well founded: [max_retries - attempt] bounds the passes
    left.  With more fuel than that it returns or raises, after at least
    one and at most [max_retries - attempt + 1] transport calls. *)
Lemma request_loop_terminates self (action : string) req :
  forall (fuel : nat) (attempt : Z) w,
    (Z.to_nat (max_retries self - attempt) < fuel)%nat ->
    exists res w' n,
      request_loop fuel self action req attempt w = Some (res, w')
      /\ calls w' = calls w ++ repeat req n
      /\ (1 <= n <= S (Z.to_nat (max_retries self - attempt)))%nat.
Proof.
  induction fuel as [| fuel IH]; intros attempt w Hfuel; [lia |].
  cbn [request_loop].
  destruct (iteration_spec self action req attempt w) as [Hcalls Hcont].
  destruct (iteration self action req attempt w) as [[[a' | value] | e] w1];
    simpl in Hcalls, Hcont.
  - destruct (Hcont a' eq_refl) as [-> Hlt].
    destruct (IH (attempt + 1) w1) as (res & w' & n & Hrun & Hc & Hn); [lia |].
    exists res, w', (S n). split; [exact Hrun |]. split.
    + rewrite Hc, Hcalls, <- app_assoc. reflexivity.
    + lia.
  - exists (Ok value), w1, 1%nat. repeat split; trivial; lia.
  - exists (Raised e), w1, 1%nat. repeat split; trivial; lia.
Qed.

(** More fuel does not change a result. *)
Lemma request_loop_fuel_mono self (action : string) req :
  forall (fuel fuel' : nat) (attempt : Z) w out,
    request_loop fuel self action req attempt w = Some out ->
    (fuel <= fuel')%nat ->
    request_loop fuel' self action req attempt w = Some out.
Proof.
  induction fuel as [| fuel IH]; intros fuel' attempt w out Hrun Hle;
    [discriminate |].
  destruct fuel' as [| fuel']; [lia |].
  cbn [request_loop] in *.
  destruct (iteration self action req attempt w) as [[[a' | value] | e] w1];
    trivial.
  apply IH with (fuel' := fuel') in Hrun; [assumption | lia].
Qed.

Lemma decodes_safe_json (text : string) :
  decodes text = true -> _safe_json text = Ok (payload_of text).
Proof.
  unfold decodes, payload_of.
  destruct (_safe_json text); [reflexivity | discriminate].
Qed.

Lemma iteration_responded self (action : string) req (attempt : Z) w
    (response : HttpResponse) (t' : T) :
  request (http_client w) req = (Responded response, t') ->
  decodes (body response) = true ->
  iteration self action req attempt w =
  handle_response self action attempt (status response)
                  (payload_of (body response)) (after_call req t' w).
Proof.
  intros Hreq Hdec. unfold iteration.
  now rewrite (http_call_spec _ _ _ _ Hreq), (decodes_safe_json _ Hdec).
Qed.

(** A response whose body makes [json.loads] raise something else than
    [JSONDecodeError]: the pass raises it, whatever the status. *)
Lemma iteration_undecodable self (action : string) req (attempt : Z) w
    (response : HttpResponse) (t' : T) (e : exn) :
  request (http_client w) req = (Responded response, t') ->
  _safe_json (body response) = Raised e ->
  iteration self action req attempt w = (Raised e, after_call req t' w).
Proof.
  intros Hreq Hraise. unfold iteration.
  now rewrite (http_call_spec _ _ _ _ Hreq), Hraise.
Qed.

Lemma iteration_failed self (action : string) req (attempt : Z) w
    (exc : exn) (t' : T) :
  request (http_client w) req = (Failed exc, t') ->
  is_SdkError exc = true ->
  iteration self action req attempt w =
  handle_failure self attempt exc (after_call req t' w).
Proof.
  intros Hreq Hsdk. unfold iteration.
  now rewrite (http_call_spec _ _ _ _ Hreq), Hsdk.
Qed.

Lemma retry_ok self (attempt : Z) w :
  0 <= delay_ms self (attempt + 1) w <= sleep_max_ms ->
  retry self attempt w =
  (Ok (Continue (attempt + 1)),
   after_sleep (delay_ms self (attempt + 1) w) (after_draw w)).
Proof.
  intros [Hlo Hhi]. unfold retry, bind, ret.
  rewrite sleep_with_backoff_spec.
  apply Z.ltb_ge in Hlo. rewrite Hlo.
  assert (E : (sleep_max_ms <? delay_ms self (attempt + 1) w) = false)
    by (apply Z.ltb_ge; lia).
  now rewrite E.
Qed.

Lemma invocations_after_call req (t' : T) w :
  invocations w (after_call req t' w) = 1.
Proof.
  unfold invocations, after_call; simpl. rewrite length_app; simpl. lia.
Qed.

Lemma encode_body_raises (payload : dict) (e : exn) :
  encode_body payload = Raised e ->
  e = SdkError "Failed to encode request payload.".
Proof.
  unfold encode_body.
  destruct (_ =? _)%nat; [intros Habs; discriminate Habs |].
  destruct (json_dumps _); intros E; [discriminate E | congruence].
Qed.

Lemma float_of_int_raises (n : Z) (e : exn) :
  float_of_int n = Raised e -> e = OverflowError.
Proof.
  unfold float_of_int.
  destruct (binary_normalize prec emax n 0 false); congruence.
Qed.

(** [float()] raises nothing but [TypeError], [ValueError] and
    [OverflowError]. *)
Lemma to_float_raises (v : pyval) (e : exn) :
  to_float v = Raised e ->
  e = TypeError \/ e = ValueError \/ e = OverflowError.
Proof.
  destruct v as [| b | n | f | s | l | d | id]; simpl; intros E;
    try (injection E as <-; auto; fail);
    try discriminate E;
    try (apply float_of_int_raises in E; auto; fail).
  destruct (float_of_str s); [discriminate E | injection E as <-; auto].
Qed.

(** [_normalize_success] field by field, where [float()] does not
    overflow. *)
Lemma normalize_success_spec self (action : string) (payload : dict) :
  processing_time_fits payload = true ->
  _normalize_success self action payload =
  Ok {| ok := true;
        action := str (get payload "action" (PStr action));
        jobKey := str (get payload "job_key" (PStr (job_key self)));
        timestamp := str (get payload "timestamp" (PStr ""));
        processingTimeMs :=
          match to_float (get payload "processing_time_ms" (PFloat float_zero)) with
          | Ok f => f
          | Raised _ => float_zero
          end;
        nextExpected :=
          match get payload "next_expected" PNone with
          | PNone => None
          | v => Some (str v)
          end;
        raw := payload |}.
Proof.
  unfold processing_time_fits, _normalize_success.
  destruct (to_float _) as [f | e] eqn:E.
  - intros _. now destruct (get payload "next_expected" PNone).
  - destruct (to_float_raises _ _ E) as [-> | [-> | ->]]; intros Hfit;
      [| | discriminate Hfit];
      now destruct (get payload "next_expected" PNone).
Qed.

Lemma invocations_step req w w1 w2 :
  calls w1 = calls w ++ [req] ->
  invocations w w2 = 1 + invocations w1 w2.
Proof.
  unfold invocations. intros E. rewrite E, length_app, Nat2Z.inj_add.
  change (Z.of_nat (List.length [req])) with 1. lia.
Qed.


(* ----------------------------------------------------------------- *)
(** *** Termination and the number of transport calls *)

(** [_request] with any body at all: it ends after at most
    [max(max_retries, 0) + 1] transport calls, at least one when the body
    encodes; a body that [json.dumps] rejects raises [SdkError] before any
    call. *)
Lemma request_terminates_bounded :
  forall (fuel : nat) self (action path : string) (body : option dict) w,
    (Z.to_nat (max_retries self) < fuel)%nat ->
    exists res w',
      _request fuel self action path body w = Some (res, w')
      /\ (forall fuel', (fuel <= fuel')%nat ->
            _request fuel' self action path body w = Some (res, w'))
      /\ 0 <= invocations w w' <= Z.max (max_retries self) 0 + 1
      /\ (forall encoded, encode_body (or_empty_dict body) = Ok encoded ->
            1 <= invocations w w')
      /\ (forall e, encode_body (or_empty_dict body) = Raised e ->
            res = Raised (SdkError "Failed to encode request payload.")
            /\ w' = w).
Proof.
  intros fuel self action path body w Hfuel. unfold _request.
  destruct (encode_body (or_empty_dict body)) as [encoded | e] eqn:Henc.
  - destruct (request_loop_terminates self action
                (build_request self path encoded) fuel 0 w)
      as (res & w' & n & Hrun & Hcalls & Hn);
      [now rewrite Z.sub_0_r |].
    rewrite Z.sub_0_r in Hn.
    assert (Hinv : invocations w w' = Z.of_nat n).
    { unfold invocations. rewrite Hcalls, length_app, repeat_length. lia. }
    exists res, w'. split; [exact Hrun |]. split; [| split; [| split]].
    + intros fuel' Hle.
      now apply request_loop_fuel_mono with (fuel := fuel).
    + rewrite Hinv; lia.
    + intros _ _. rewrite Hinv; lia.
    + intros e0 Habs; discriminate Habs.
  - exists (Raised e), w.
    assert (Hinv : invocations w w = 0) by (unfold invocations; lia).
    split; [reflexivity |]. split; [| split; [| split]].
    + reflexivity.
    + rewrite Hinv; lia.
    + intros encoded Habs; discriminate Habs.
    + intros e' He'. injection He' as <-.
      now rewrite (encode_body_raises _ _ Henc).
Qed.

Lemma public_body_encodes (payload : option dict) :
  public_body payload = true ->
  exists encoded, encode_body (or_empty_dict payload) = Ok encoded.
Proof.
  destruct payload as [d |]; simpl; [| intros _; eexists; reflexivity].
  destruct d as [| [k v] rest]; [intros H; discriminate H |].
  destruct rest as [| second rest];
    [| intros H; destruct v; discriminate H].
  destruct v; intros H; try discriminate H.
  eexists; reflexivity.
Qed.

(** C10.  For every client configuration (any integer [max_retries]) and
    every transport, whatever outcomes it gives, the retry loop of a
    pipeline call ends: with more passes allowed than [max_retries] it
    returns or raises, and allowing still more changes nothing, because
    every further pass needs [attempt < max_retries] and raises [attempt].
    The transport is called at least once and at most
    [max(max_retries, 0) + 1] times.  The same holds of [_request] on the
    bodies the public methods pass. *)
Theorem pipeline_call_terminates :
  forall (fuel : nat) self (action path : string) (payload : option dict) w,
    (Z.to_nat (max_retries self) < fuel)%nat ->
    (forall req, exists res w',
        request_loop fuel self action req 0 w = Some (res, w')
        /\ (forall fuel', (fuel <= fuel')%nat ->
              request_loop fuel' self action req 0 w = Some (res, w'))
        /\ 1 <= invocations w w' <= Z.max (max_retries self) 0 + 1)
    /\ (public_body payload = true ->
        exists res w',
          _request fuel self action path payload w = Some (res, w')
          /\ (forall fuel', (fuel <= fuel')%nat ->
                _request fuel' self action path payload w = Some (res, w'))
          /\ 1 <= invocations w w' <= Z.max (max_retries self) 0 + 1).
Proof.
  intros fuel self action path payload w Hfuel.
  assert (Hloop : forall req, exists res w',
            request_loop fuel self action req 0 w = Some (res, w')
            /\ (forall fuel', (fuel <= fuel')%nat ->
                  request_loop fuel' self action req 0 w = Some (res, w'))
            /\ 1 <= invocations w w' <= Z.max (max_retries self) 0 + 1).
  { intros req.
    destruct (request_loop_terminates self action req fuel 0 w)
      as (res & w' & n & Hrun & Hcalls & Hn); [now rewrite Z.sub_0_r |].
    rewrite Z.sub_0_r in Hn.
    exists res, w'. split; [exact Hrun |]. split.
    - intros fuel' Hle.
      now apply request_loop_fuel_mono with (fuel := fuel).
    - unfold invocations. rewrite Hcalls, length_app, repeat_length. lia. }
  split; [exact Hloop |].
  intros Hpublic.
  destruct (public_body_encodes payload Hpublic) as (encoded & Henc).
  unfold _request. rewrite Henc. apply Hloop.
Qed.

(* ----------------------------------------------------------------- *)
(** *** Statuses that are not retried *)

(** A first response that decodes, with a status outside [200, 300) that
    is classified as not retryable: whatever [max_retries] is, the call
    raises [ApiError] with the classified code, [retryable = False] and
    that [http_status], after exactly one transport call; the code is
    [NOT_FOUND] for 404 and [VALIDATION_ERROR] for 400. *)
Lemma non_retryable_status_raises_at_once :
  forall (fuel : nat) self (action path : string) (payload : option dict) w
         (encoded : option string) (response : HttpResponse) (t' : T),
    encode_body (or_empty_dict payload) = Ok encoded ->
    request (http_client w) (build_request self path encoded)
      = (Responded response, t') ->
    decodes (body response) = true ->
    (200 <=? status response) && (status response <? 300) = false ->
    retryable (_map_error (status response)) = false ->
    _request (S fuel) self action path payload w =
      Some (Raised (ApiError (code (_map_error (status response)))
                             (str (get (payload_of (body response)) "message"
                                       (PStr "Request failed")))
                             (Some (status response)) false
                             (RawPayload (payload_of (body response)))),
            after_call (build_request self path encoded) t' w)
    /\ invocations w (after_call (build_request self path encoded) t' w) = 1
    /\ (status response = 404 ->
        code (_map_error (status response)) = "NOT_FOUND")
    /\ (status response = 400 ->
        code (_map_error (status response)) = "VALIDATION_ERROR").
Proof.
  intros fuel self action path payload w encoded response t'
         Henc Hreq Hdec H2xx Hno.
  repeat split.
  - unfold _request. rewrite Henc. cbn [request_loop].
    rewrite (iteration_responded _ _ _ _ _ _ _ Hreq Hdec).
    unfold handle_response. rewrite H2xx, Hno. reflexivity.
  - apply invocations_after_call.
  - intros ->; reflexivity.
  - intros ->; reflexivity.
Qed.

(** C3, where the code parts from the specification: a response whose
    body makes [json.loads] raise something else than [JSONDecodeError]
    (a [ValueError] on an integer literal over the digit limit, a
    [RecursionError] on nesting too deep) ends the call after its one
    transport call with that exception, not with the [ApiError] of its
    status, for the body is decoded before the status is looked at and
    only [JSONDecodeError] is caught; so it is with a 404 and with a 400. *)
Theorem undecodable_body_hides_the_status :
  forall (fuel : nat) self (action path : string) (payload : option dict) w
         (encoded : option string) (response : HttpResponse) (t' : T),
    encode_body (or_empty_dict payload) = Ok encoded ->
    request (http_client w) (build_request self path encoded)
      = (Responded response, t') ->
    status response = 404 \/ status response = 400 ->
    (json_loads (body response) = DigitLimitExceeded ->
       _request (S fuel) self action path payload w =
       Some (Raised ValueError,
             after_call (build_request self path encoded) t' w))
    /\ (json_loads (body response) = NestingTooDeep ->
        _request (S fuel) self action path payload w =
        Some (Raised RecursionError,
              after_call (build_request self path encoded) t' w)).
Proof.
  intros fuel self action path payload w encoded response t' Henc Hreq _.
  split; intros Hloads.
  - assert (Hraise : _safe_json (body response) = Raised ValueError)
      by (unfold _safe_json; now rewrite Hloads).
    unfold _request. rewrite Henc. cbn [request_loop].
    now rewrite (iteration_undecodable _ _ _ _ _ _ _ _ Hreq Hraise).
  - assert (Hraise : _safe_json (body response) = Raised RecursionError)
      by (unfold _safe_json; now rewrite Hloads).
    unfold _request. rewrite Henc. cbn [request_loop].
    now rewrite (iteration_undecodable _ _ _ _ _ _ _ _ Hreq Hraise).
Qed.

(* ----------------------------------------------------------------- *)
(** *** Transport failures *)

(** C4, as the code has it.  A pass of the loop in which the transport
    raises an [SdkError]: once the attempt counter has reached
    [max_retries] the call raises [ApiError] with code [NETWORK_ERROR], no
    HTTP status, [retryable = True] and the text of the transport's error
    as message; before that the counter goes up by one and
    [_sleep_with_backoff] runs with the new value, after which the loop
    goes round again when the sleep returns, and the call raises what the
    sleep raised when it does not. *)
Theorem transport_failure_step :
  forall (fuel : nat) self (action : string) req (attempt : Z) w
         (exc : exn) (t' : T),
    request (http_client w) req = (Failed exc, t') ->
    is_SdkError exc = true ->
    (max_retries self <= attempt ->
       request_loop (S fuel) self action req attempt w =
       Some (Raised (ApiError "NETWORK_ERROR" (exn_text exc) None true
                              (RawException exc)),
             after_call req t' w))
    /\ (attempt < max_retries self ->
        request_loop (S fuel) self action req attempt w =
        match _sleep_with_backoff self (attempt + 1) (after_call req t' w) with
        | (Ok _, w2) => request_loop fuel self action req (attempt + 1) w2
        | (Raised e, w2) => Some (Raised e, w2)
        end).
Proof.
  intros fuel self action req attempt w exc t' Hreq Hsdk.
  split; intros Hcmp; cbn [request_loop];
    rewrite (iteration_failed _ _ _ _ _ _ _ Hreq Hsdk); unfold handle_failure.
  - assert (E : (attempt >=? max_retries self) = true)
      by now apply geb_true_iff.
    now rewrite E.
  - assert (E : (attempt >=? max_retries self) = false)
      by now apply geb_false_iff.
    rewrite E. unfold retry, bind, ret.
    destruct (_sleep_with_backoff self (attempt + 1) (after_call req t' w))
      as [[[] | e] w2]; reflexivity.
Qed.

(* ----------------------------------------------------------------- *)
(** *** One retry, then success *)

(** C2, as the code has it.  With [max_retries >= 1], a first outcome that
    is a 429 response or a transport failure, a first backoff delay that
    [time.sleep] accepts (not negative, not above the platform's limit),
    and a second outcome that is a 200 response whose [processing_time_ms]
    does not overflow [float()], the bodies of the responses being ones
    that [json.loads] decodes or rejects with [JSONDecodeError]: the call
    makes exactly two transport calls, sleeps once in between, and returns
    the normalized result. *)
Theorem retry_once_then_success :
  forall (fuel : nat) self (action path : string) (payload : option dict) w
         (encoded : option string) (first : outcome) (t1 : T)
         (second : HttpResponse) (t2 : T),
    1 <= max_retries self ->
    encode_body (or_empty_dict payload) = Ok encoded ->
    request (http_client w) (build_request self path encoded) = (first, t1) ->
    retryable_outcome first = true ->
    outcome_decodes first = true ->
    request t1 (build_request self path encoded) = (Responded second, t2) ->
    status second = 200 ->
    decodes (body second) = true ->
    0 <= delay_ms self 1 w <= sleep_max_ms ->
    processing_time_fits (payload_of (body second)) = true ->
    exists value w',
      _request (S (S fuel)) self action path payload w = Some (Ok value, w')
      /\ _normalize_success self action (payload_of (body second)) = Ok value
      /\ ok value = true
      /\ calls w' = calls w ++ [build_request self path encoded;
                                build_request self path encoded]
      /\ invocations w w' = 2
      /\ slept w' = slept w ++ [delay_ms self 1 w].
Proof.
  intros fuel self action path payload w encoded first t1 second t2
         Hmax Henc Hfirst Hretry Hdec1 Hsecond H200 Hdec2 Hdelay Hfit.
  set (req := build_request self path encoded) in *.
  set (w1 := after_call req t1 w).
  set (w2 := after_sleep (delay_ms self 1 w) (after_draw w1)).
  assert (Hstep1 : iteration self action req 0 w = (Ok (Continue 1), w2)).
  { assert (Hr : retry self 0 w1 = (Ok (Continue 1), w2))
      by (apply (retry_ok self 0 w1); exact Hdelay).
    destruct first as [response | exc]; simpl in Hretry, Hdec1.
    - rewrite (iteration_responded _ _ _ _ _ _ _ Hfirst Hdec1).
      apply Z.eqb_eq in Hretry. unfold handle_response. rewrite Hretry.
      assert (E : (0 <? max_retries self) = true) by (apply Z.ltb_lt; lia).
      cbn. rewrite E. exact Hr.
    - rewrite (iteration_failed _ _ _ _ _ _ _ Hfirst Hretry).
      unfold handle_failure.
      assert (E : (0 >=? max_retries self) = false)
        by (apply geb_false_iff; lia).
      rewrite E. exact Hr. }
  pose proof (normalize_success_spec self action _ Hfit) as Hnorm.
  eexists; exists (after_call req t2 w2).
  split; [| split; [exact Hnorm | split; [reflexivity |]]].
  - unfold _request. rewrite Henc. fold req. cbn [request_loop].
    rewrite Hstep1.
    rewrite (iteration_responded self action req 1 w2 second t2 Hsecond Hdec2).
    unfold handle_response. rewrite H200. cbn.
    unfold bind, lift, ret. rewrite Hnorm. reflexivity.
  - repeat split.
    + unfold w2, w1; simpl. rewrite <- app_assoc. reflexivity.
    + unfold invocations, w2, w1; simpl. rewrite !length_app; simpl. lia.
Qed.

End Pipeline.

(* ================================================================= *)
(** ** Decoding, normalization, backoff and progress *)

Section Decoding.
Context {rt : Runtime} {T : Type} {transport : HttpClient T}.

Implicit Types (self : PingClient) (w : @World T) (req : Request).

(** A response body that [json.loads] rejects with [JSONDecodeError] or
    decodes to something else than an object is replaced by the
    placeholder payload, and the pass of the loop goes on with it as with
    any decoded payload; on a status in [200, 300) the call returns the
    normalized placeholder. *)
Lemma invalid_json_is_replaced :
  forall self (action : string) req (attempt : Z) w
         (response : HttpResponse) (t' : T),
    request (http_client w) req = (Responded response, t') ->
    decodes (body response) = true ->
    valid_json_object (body response) = false ->
    _safe_json (body response) = Ok [("message", PStr "Invalid JSON response")]
    /\ iteration self action req attempt w =
       handle_response self action attempt (status response)
         [("message", PStr "Invalid JSON response")] (after_call req t' w)
    /\ (200 <= status response < 300 ->
        iteration self action req attempt w =
        (Ok (Return {| ok := true; action := action; jobKey := job_key self;
                       timestamp := ""; processingTimeMs := float_zero;
                       nextExpected := None;
                       raw := [("message", PStr "Invalid JSON response")] |}),
         after_call req t' w)).
Proof.
  intros self action req attempt w response t' Hreq Hdec Hbad.
  assert (Hsafe : _safe_json (body response)
                  = Ok [("message", PStr "Invalid JSON response")]).
  { unfold valid_json_object in Hbad. unfold decodes in Hdec.
    unfold _safe_json in *.
    destruct (json_loads (body response)) as [[| | | | | | d |] | | |];
      reflexivity || discriminate. }
  assert (Hpay : payload_of (body response)
                 = [("message", PStr "Invalid JSON response")])
    by (unfold payload_of; now rewrite Hsafe).
  split; [exact Hsafe |].
  rewrite (iteration_responded _ _ _ _ _ _ _ Hreq Hdec), Hpay.
  split; [reflexivity |].
  intros [Hlo Hhi]. unfold handle_response.
  apply Z.leb_le in Hlo. apply Z.ltb_lt in Hhi. rewrite Hlo, Hhi.
  reflexivity.
Qed.

(** C7, where the code parts from the specification: [_safe_json] catches
    [json.JSONDecodeError] alone.  On a body that makes [json.loads] raise
    a plain [ValueError] (an integer literal over the digit limit) or a
    [RecursionError] (nesting too deep) no placeholder is put in its
    place: [_safe_json] raises, and so does the call, after that transport
    call and whatever the status of the response. *)
Theorem decoder_errors_reach_the_caller :
  forall (fuel : nat) self (action : string) req (attempt : Z) w
         (response : HttpResponse) (t' : T),
    request (http_client w) req = (Responded response, t') ->
    (json_loads (body response) = DigitLimitExceeded ->
       _safe_json (body response) = Raised ValueError
       /\ request_loop (S fuel) self action req attempt w
          = Some (Raised ValueError, after_call req t' w))
    /\ (json_loads (body response) = NestingTooDeep ->
        _safe_json (body response) = Raised RecursionError
        /\ request_loop (S fuel) self action req attempt w
           = Some (Raised RecursionError, after_call req t' w)).
Proof.
  intros fuel self action req attempt w response t' Hreq.
  split; intros Hloads.
  - assert (Hraise : _safe_json (body response) = Raised ValueError)
      by (unfold _safe_json; now rewrite Hloads).
    split; [exact Hraise |]. cbn [request_loop].
    now rewrite (iteration_undecodable _ _ _ _ _ _ _ _ Hreq Hraise).
  - assert (Hraise : _safe_json (body response) = Raised RecursionError)
      by (unfold _safe_json; now rewrite Hloads).
    split; [exact Hraise |]. cbn [request_loop].
    now rewrite (iteration_undecodable _ _ _ _ _ _ _ _ Hreq Hraise).
Qed.

(** C5, where the code parts from the specification: on a payload whose
    [processing_time_ms] is an integer too large for a float,
    [_normalize_success] raises [OverflowError] instead of defaulting to
    0.0, for [float()] raises it and only [TypeError] and [ValueError] are
    caught. *)
Theorem normalize_success_overflow :
  forall self (action : string),
    _normalize_success self action [("processing_time_ms", PInt (2 ^ 1024))]
    = Raised OverflowError.
Proof. intros self action. vm_compute. reflexivity. Qed.




(** [progress] with a bare integer: the validation, then one call of
    [_request] on the path with the sequence number and the body
    [{"message": ...}]. *)
Lemma progress_bare_integer (fuel : nat) self (n : Z) (message : option string) w :
  progress fuel self (Seq n) message w =
  if n <? 0
  then Some (Raised (ValidationError
                       "Progress seq must be a non-negative integer."), w)
  else _request fuel self "progress"
         (String.append "/ping/"
            (String.append (job_key self)
               (String.append "/progress/" (str_of_int n))))
         (Some [("message", PStr (sent_message message))]) w.
Proof. reflexivity. Qed.

(** Whatever its input, [progress] either raises before any call or makes
    one [_request] call whose body has the single entry [message]: the
    assignment [body["progress"] = ...] is never reached with an integer
    input. *)
Lemma progress_body_is_message_only (fuel : nat) self (input : ProgressInput)
    (message : option string) w :
  (exists e, progress fuel self input message w = Some (Raised e, w))
  \/ (exists path m,
        progress fuel self input message w =
        _request fuel self "progress" path (Some [("message", PStr m)]) w).
Proof.
  unfold progress.
  destruct (resolve_progress input message) as [[[v |] msg] | e] eqn:Hres.
  - destruct (seq_negative v); [left; eexists; reflexivity |].
    right; do 2 eexists; reflexivity.
  - right. destruct input as [n | b | d |].
    + discriminate Hres.
    + discriminate Hres.
    + do 2 eexists; reflexivity.
    + do 2 eexists; reflexivity.
  - left; eexists; reflexivity.
Qed.

(** C6, where the code parts from the specification: a bare integer and the
    options form with the same [seq] make [progress] behave alike.  Both
    are rejected when the number is negative; otherwise both make the same
    [_request] call, whose body [{"message": ...}] holds no [progress]
    entry.  The line that would add one is past the [return] taken
    whenever a sequence number is present. *)
Theorem progress_bare_integer_sends_no_progress_field :
  forall (fuel : nat) self (n : Z) (message : option string) w,
    progress fuel self (Seq n) message w
    = progress fuel self (Options [("seq", PInt n)]) message w
    /\ lookup "progress" [("message", PStr (sent_message message))] = None
    /\ progress fuel self (Seq n) message w =
       if n <? 0
       then Some (Raised (ValidationError
                            "Progress seq must be a non-negative integer."), w)
       else _request fuel self "progress"
              (String.append "/ping/"
                 (String.append (job_key self)
                    (String.append "/progress/" (str_of_int n))))
              (Some [("message", PStr (sent_message message))]) w.
Proof.
  intros fuel self n message w. split; [| split].
  - unfold progress; cbn. destruct message; reflexivity.
  - reflexivity.
  - apply progress_bare_integer.
Qed.

End Decoding.

(* ================================================================= *)
(** ** The tests of the repository, and the theorems at concrete inputs *)

Section Concrete.
Import Stub.
#[local] Existing Instance sample_runtime.

(** [test_success_response_is_normalized] *)
Example ping_success_is_normalized :
  exists w',
    ping 1 (sample_client 2 250 100) (stub_world [respond 200 success_text] 0)
    = Some (Ok {| ok := true; action := "ping"; jobKey := "abc123de";
                  timestamp := ""; processingTimeMs := float_8_25;
                  nextExpected := None; raw := success_payload |}, w')
    /\ List.length (calls w') = 1%nat.
Proof. eexists; split; vm_compute; reflexivity. Qed.

(** [test_404_maps_to_not_found] *)
Example ping_404_maps_to_not_found :
  exists w',
    ping 1 (sample_client 0 250 100) world_404
    = Some (Raised (ApiError "NOT_FOUND" "Job not found" (Some 404) false
                             (RawPayload not_found_payload)), w')
    /\ List.length (calls w') = 1%nat.
Proof. eexists; split; vm_compute; reflexivity. Qed.

(** [test_retry_on_429_then_success] *)
Example ping_retry_on_429_then_success :
  exists value w',
    ping 3 (sample_client 2 1 0) world_429_then_200 = Some (Ok value, w')
    /\ ok value = true
    /\ List.length (calls w') = 2%nat
    /\ slept w' = [1].
Proof. do 2 eexists; repeat split; vm_compute; reflexivity. Qed.

(** [test_no_retry_on_400] *)
Example ping_no_retry_on_400 :
  exists w',
    ping 3 (sample_client 2 250 100) world_400
    = Some (Raised (ApiError "VALIDATION_ERROR" "Request failed" (Some 400) false
                             (RawPayload [])), w')
    /\ List.length (calls w') = 1%nat.
Proof. eexists; split; vm_compute; reflexivity. Qed.

(** [test_retry_on_network_error_then_success] *)
Example ping_retry_on_network_error_then_success :
  exists value w',
    ping 3 (sample_client 2 1 0) world_failure_then_200 = Some (Ok value, w')
    /\ ok value = true
    /\ List.length (calls w') = 2%nat.
Proof. do 2 eexists; repeat split; vm_compute; reflexivity. Qed.

(** [test_progress_normalization_and_message_truncation] *)
Example progress_truncates_message :
  exists value w',
    progress 1 (sample_client 2 250 100)
      (Options [("seq", PInt 50); ("message", PStr long_message)]) None
      (stub_world [] 0)
    = Some (Ok value, w')
    /\ map req_url (calls w') = ["https://cronbeats.io/ping/abc123de/progress/50"]
    /\ map req_body (calls w')
       = [Some (sample_json_text
                  (PDict [("message",
                           PStr (string_of_list_ascii (repeat "x"%char 255)))]))].
Proof. do 2 eexists; repeat split; vm_compute; reflexivity. Qed.

(** Every transport call fails: with [max_retries = 2] the call gives up
    after three calls and two sleeps. *)
Example ping_network_error_after_retries :
  exists w',
    ping 3 (sample_client 2 1 0) dead_world
    = Some (Raised (ApiError "NETWORK_ERROR" "connection refused" None true
                             (RawException (SdkError "connection refused"))), w')
    /\ List.length (calls w') = 3%nat
    /\ slept w' = [1; 2].
Proof. eexists; repeat split; vm_compute; reflexivity. Qed.

(** A 200 response whose [processing_time_ms] is the integer 2^1024 makes
    [ping()] raise [OverflowError]. *)
Example ping_overflow_on_huge_processing_time :
  exists w',
    ping 1 (sample_client 2 250 100) world_huge_200
    = Some (Raised OverflowError, w').
Proof. eexists; vm_compute; reflexivity. Qed.

(** [map_error_classification] at 503. *)
Lemma map_error_classification_witness :
  classified 503 "SERVER_ERROR" true
  /\ _map_error 503 = {| code := "SERVER_ERROR"; retryable := true |}.
Proof.
  assert (H : classified 503 "SERVER_ERROR" true) by (apply row_5xx; lia).
  split; [exact H |].
  exact (proj2 (map_error_classification 503) "SERVER_ERROR" true H).
Defined.

(** [job_key_validation] at the key of the tests, and at a malformed one. *)
Lemma job_key_validation_witness :
  job_key_ok "invalid-key" = false
  /\ __init__ "invalid-key" None (stub_world [] 0)
     = (Raised (ValidationError "jobKey must be exactly 8 Base62 characters."),
        stub_world [] 0)
  /\ job_key_ok "abc123de" = true
  /\ exists self,
       __init__ "abc123de" None (stub_world [] 0) = (Ok self, stub_world [] 0)
       /\ job_key self = "abc123de".
Proof.
  split; [reflexivity |].
  split; [exact (proj1 (job_key_validation "invalid-key" None (stub_world [] 0))
                       eq_refl) |].
  split; [reflexivity |].
  exact (proj2 (proj2 (job_key_validation "abc123de" None (stub_world [] 0)))
               eq_refl).
Defined.

(** [pipeline_call_terminates] at the all-failing transport. *)
Lemma pipeline_call_terminates_witness :
  (Z.to_nat (max_retries (sample_client 2 1 0)) < 3)%nat
  /\ public_body None = true
  /\ exists res w',
       _request 3 (sample_client 2 1 0) "ping" "/ping/abc123de" None dead_world
       = Some (res, w')
       /\ 1 <= invocations dead_world w'
            <= Z.max (max_retries (sample_client 2 1 0)) 0 + 1.
Proof.
  assert (H : (Z.to_nat (max_retries (sample_client 2 1 0)) < 3)%nat)
    by (vm_compute; lia).
  split; [exact H |]. split; [reflexivity |].
  destruct (proj2 (pipeline_call_terminates 3 (sample_client 2 1 0) "ping"
                     "/ping/abc123de" None dead_world H) eq_refl)
    as (res & w' & Hrun & _ & Hinv).
  exists res, w'. split; [exact Hrun | exact Hinv].
Defined.

(** [undecodable_body_hides_the_status] at a 404 whose body is an
    integer literal of 5000 digits. *)
Lemma undecodable_body_hides_the_status_witness :
  encode_body (or_empty_dict None) = Ok None
  /\ request (http_client world_404_long_integer)
       (ping_request (sample_client 2 250 100))
     = (Responded (respond 404 long_integer_text),
        stub_after world_404_long_integer
                   (ping_request (sample_client 2 250 100)))
  /\ json_loads (body (respond 404 long_integer_text)) = DigitLimitExceeded
  /\ _request 1 (sample_client 2 250 100) "ping" "/ping/abc123de" None
              world_404_long_integer
     = Some (Raised ValueError,
             after_call (ping_request (sample_client 2 250 100))
               (stub_after world_404_long_integer
                           (ping_request (sample_client 2 250 100)))
               world_404_long_integer).
Proof.
  assert (Hreq : request (http_client world_404_long_integer)
                   (build_request (sample_client 2 250 100) "/ping/abc123de" None)
                 = (Responded (respond 404 long_integer_text),
                    stub_after world_404_long_integer
                               (ping_request (sample_client 2 250 100))))
    by reflexivity.
  assert (Hloads : json_loads (body (respond 404 long_integer_text))
                   = DigitLimitExceeded)
    by (vm_compute; reflexivity).
  split; [reflexivity |]. split; [exact Hreq |]. split; [exact Hloads |].
  exact (proj1 (undecodable_body_hides_the_status 0 (sample_client 2 250 100)
                  "ping" "/ping/abc123de" None world_404_long_integer None
                  (respond 404 long_integer_text) _ eq_refl Hreq
                  (or_introl eq_refl)) Hloads).
Defined.

(** [transport_failure_step] at the all-failing transport, out of budget. *)
Lemma transport_failure_step_witness :
  request (http_client dead_world) (ping_request (sample_client 0 1 0))
  = (Failed (SdkError "connection refused"), {| attempts_seen := 1 |})
  /\ is_SdkError (SdkError "connection refused") = true
  /\ max_retries (sample_client 0 1 0) <= 0
  /\ request_loop 1 (sample_client 0 1 0) "ping"
       (ping_request (sample_client 0 1 0)) 0 dead_world
     = Some (Raised (ApiError "NETWORK_ERROR" "connection refused" None true
                              (RawException (SdkError "connection refused"))),
             after_call (ping_request (sample_client 0 1 0))
                        {| attempts_seen := 1 |} dead_world).
Proof.
  assert (H : max_retries (sample_client 0 1 0) <= 0) by (vm_compute; discriminate).
  repeat (split; [reflexivity || exact H |]).
  exact (proj1 (transport_failure_step 0 (sample_client 0 1 0) "ping"
                  (ping_request (sample_client 0 1 0)) 0 dead_world
                  (SdkError "connection refused") {| attempts_seen := 1 |}
                  eq_refl eq_refl) H).
Defined.

(** [retry_once_then_success] at the 429-then-200 script of the tests. *)
Lemma retry_once_then_success_witness :
  1 <= max_retries (sample_client 2 1 0)
  /\ retryable_outcome (Responded (respond 429 "{}")) = true
  /\ outcome_decodes (Responded (respond 429 "{}")) = true
  /\ decodes (body (respond 200 success_text)) = true
  /\ 0 <= delay_ms (sample_client 2 1 0) 1 world_429_then_200 <= sleep_max_ms
  /\ processing_time_fits (payload_of (body (respond 200 success_text))) = true
  /\ exists value w',
       _request 2 (sample_client 2 1 0) "ping" "/ping/abc123de" None
                world_429_then_200 = Some (Ok value, w')
       /\ ok value = true
       /\ invocations world_429_then_200 w' = 2.
Proof.
  assert (H1 : 1 <= max_retries (sample_client 2 1 0))
    by (vm_compute; discriminate).
  assert (H2 : 0 <= delay_ms (sample_client 2 1 0) 1 world_429_then_200
               <= sleep_max_ms)
    by (vm_compute; split; discriminate).
  assert (H3 : request (http_client world_429_then_200)
                 (build_request (sample_client 2 1 0) "/ping/abc123de" None)
               = (Responded (respond 429 "{}"),
                  stub_after world_429_then_200
                             (ping_request (sample_client 2 1 0))))
    by reflexivity.
  assert (H4 : request (stub_after world_429_then_200
                                   (ping_request (sample_client 2 1 0)))
                 (build_request (sample_client 2 1 0) "/ping/abc123de" None)
               = (Responded (respond 200 success_text),
                  snd (stub_request
                         (stub_after world_429_then_200
                                     (ping_request (sample_client 2 1 0)))
                         (ping_request (sample_client 2 1 0)))))
    by reflexivity.
  assert (H5 : outcome_decodes (Responded (respond 429 "{}")) = true)
    by (vm_compute; reflexivity).
  assert (H6 : decodes (body (respond 200 success_text)) = true)
    by (vm_compute; reflexivity).
  assert (H7 : processing_time_fits
                 (payload_of (body (respond 200 success_text))) = true)
    by (vm_compute; reflexivity).
  split; [exact H1 |]. split; [reflexivity |]. split; [exact H5 |].
  split; [exact H6 |]. split; [exact H2 |]. split; [exact H7 |].
  destruct (retry_once_then_success 0 (sample_client 2 1 0) "ping"
              "/ping/abc123de" None world_429_then_200 None
              (Responded (respond 429 "{}"))
              (stub_after world_429_then_200 (ping_request (sample_client 2 1 0)))
              (respond 200 success_text)
              (snd (stub_request
                      (stub_after world_429_then_200
                                  (ping_request (sample_client 2 1 0)))
                      (ping_request (sample_client 2 1 0))))
              H1 eq_refl H3 eq_refl H5 H4 eq_refl H6 H2 H7)
    as (value & w' & Hrun & _ & Hok & _ & Hinv & _).
  exists value, w'. split; [exact Hrun |]. split; [exact Hok | exact Hinv].
Defined.

(** With [max_retries = 2] and [retry_backoff_ms = -1], a 429 followed by a
    200 does not give a result: the first backoff delay is -1 ms,
    [time.sleep] raises [ValueError], and the second response is never
    asked for. *)
Lemma retry_with_negative_backoff_raises :
  1 <= max_retries (sample_client 2 (-1) 0)
  /\ retryable_outcome (Responded (respond 429 "{}")) = true
  /\ (exists w', ping 3 (sample_client 2 (-1) 0) world_429_then_200
                 = Some (Raised ValueError, w')
                 /\ invocations world_429_then_200 w' = 1)
  /\ ~ (exists (fuel : nat) value w',
          ping fuel (sample_client 2 (-1) 0) world_429_then_200
          = Some (Ok value, w')).
Proof.
  split; [vm_compute; discriminate |].
  split; [reflexivity |].
  split; [eexists; split; vm_compute; reflexivity |].
  intros (fuel & value & w' & Hrun).
  destruct fuel as [| fuel]; [discriminate Hrun |].
  vm_compute in Hrun. discriminate Hrun.
Qed.

(** [decoder_errors_reach_the_caller] at a 200 whose body is an integer
    literal of 5000 digits. *)
Lemma decoder_errors_reach_the_caller_witness :
  request (http_client world_200_long_integer)
    (ping_request (sample_client 2 250 100))
  = (Responded (respond 200 long_integer_text),
     stub_after world_200_long_integer (ping_request (sample_client 2 250 100)))
  /\ json_loads (body (respond 200 long_integer_text)) = DigitLimitExceeded
  /\ _safe_json (body (respond 200 long_integer_text)) = Raised ValueError
  /\ request_loop 1 (sample_client 2 250 100) "ping"
       (ping_request (sample_client 2 250 100)) 0 world_200_long_integer
     = Some (Raised ValueError,
             after_call (ping_request (sample_client 2 250 100))
               (stub_after world_200_long_integer
                           (ping_request (sample_client 2 250 100)))
               world_200_long_integer).
Proof.
  assert (Hreq : request (http_client world_200_long_integer)
                   (ping_request (sample_client 2 250 100))
                 = (Responded (respond 200 long_integer_text),
                    stub_after world_200_long_integer
                               (ping_request (sample_client 2 250 100))))
    by reflexivity.
  assert (Hloads : json_loads (body (respond 200 long_integer_text))
                   = DigitLimitExceeded)
    by (vm_compute; reflexivity).
  split; [exact Hreq |]. split; [exact Hloads |].
  exact (proj1 (decoder_errors_reach_the_caller 0 (sample_client 2 250 100)
                  "ping" (ping_request (sample_client 2 250 100)) 0
                  world_200_long_integer (respond 200 long_integer_text) _
                  Hreq) Hloads).
Defined.



(** With [max_retries = 2] and [retry_backoff_ms = -1], a transport failure
    at attempt 0 is within the budget and yet not retried: the backoff
    delay is -1 ms, [time.sleep] raises [ValueError], and the call ends
    after one transport call. *)
Lemma transport_failure_with_negative_backoff_is_not_retried :
  request (http_client dead_world) (ping_request (sample_client 2 (-1) 0))
  = (Failed (SdkError "connection refused"), {| attempts_seen := 1 |})
  /\ 0 < max_retries (sample_client 2 (-1) 0)
  /\ ~ (exists w',
          iteration (sample_client 2 (-1) 0) "ping"
                    (ping_request (sample_client 2 (-1) 0)) 0 dead_world
          = (Ok (Continue 1), w'))
  /\ exists w',
       ping 3 (sample_client 2 (-1) 0) dead_world = Some (Raised ValueError, w')
       /\ invocations dead_world w' = 1.
Proof.
  split; [reflexivity |].
  split; [reflexivity |].
  split.
  - intros (w' & Hrun). vm_compute in Hrun. discriminate Hrun.
  - eexists; split; vm_compute; reflexivity.
Qed.

End Concrete.

(* ================================================================= *)
(** ** Further properties of the pipeline *)

Section Further.
Context {rt : Runtime} {T : Type} {transport : HttpClient T}.

Implicit Types (self : PingClient) (w : @World T) (req : Request).

(** [_map_error] marks exactly 429 and the statuses from 500 up as
    retryable. *)
Lemma retryable_iff (status : Z) :
  retryable (_map_error status) = true <-> status = 429 \/ 500 <= status.
Proof.
  unfold _map_error.
  destruct (Z.eqb_spec status 400) as [-> | H400]; [simpl; split; [discriminate | lia] |].
  destruct (Z.eqb_spec status 404) as [-> | H404]; [simpl; split; [discriminate | lia] |].
  destruct (Z.eqb_spec status 429) as [-> | H429]; [simpl; split; auto |].
  destruct (status >=? 500) eqn:H500; simpl.
  - apply geb_true_iff in H500. split; auto.
  - apply geb_false_iff in H500. split; [discriminate | lia].
Qed.

(** What a retry leaves in the sleep log: the new delay when the sleep
    returned, nothing when it raised. *)
Lemma retry_slept self (attempt : Z) w :
  match fst (retry self attempt w) with
  | Ok _ =>
      exists j, 0 <= j <= Z.max 0 (retry_jitter_ms self)
        /\ 0 <= retry_backoff_ms self * 2 ^ Z.max 0 attempt + j
        /\ slept (snd (retry self attempt w))
           = slept w ++ [retry_backoff_ms self * 2 ^ Z.max 0 attempt + j]
  | Raised e =>
      slept (snd (retry self attempt w)) = slept w
      /\ (e = ValueError \/ e = OverflowError \/ e = OSError)
  end.
Proof.
  unfold retry, bind, ret. rewrite sleep_with_backoff_spec.
  unfold delay_ms. rewrite Z.add_simpl_r.
  destruct (_ <? 0) eqn:Hneg; [simpl; auto |].
  destruct (sleep_max_ms <? _);
    [simpl; destruct (sleep_refusal _); simpl; auto |].
  simpl. exists (jitter_draw self w).
  split; [apply jitter_draw_range |].
  split; [now apply Z.ltb_ge in Hneg | reflexivity].
Qed.

(** The sleep log over one pass of the loop. *)
Lemma iteration_slept self (action : string) req (attempt : Z) w :
  match fst (iteration self action req attempt w) with
  | Ok (Continue _) =>
      exists j, 0 <= j <= Z.max 0 (retry_jitter_ms self)
        /\ 0 <= retry_backoff_ms self * 2 ^ Z.max 0 attempt + j
        /\ slept (snd (iteration self action req attempt w))
           = slept w ++ [retry_backoff_ms self * 2 ^ Z.max 0 attempt + j]
  | _ => slept (snd (iteration self action req attempt w)) = slept w
  end.
Proof.
  unfold iteration.
  destruct (request (http_client w) req) as [o t'] eqn:Hreq.
  rewrite (http_call_spec _ _ _ _ Hreq).
  pose proof (retry_slept self attempt (after_call req t' w)) as Hretry.
  assert (Hr : match fst (retry self attempt (after_call req t' w)) with
               | Ok (Continue _) =>
                   exists j, 0 <= j <= Z.max 0 (retry_jitter_ms self)
                     /\ 0 <= retry_backoff_ms self * 2 ^ Z.max 0 attempt + j
                     /\ slept (snd (retry self attempt (after_call req t' w)))
                        = slept w ++ [retry_backoff_ms self * 2 ^ Z.max 0 attempt + j]
               | _ => slept (snd (retry self attempt (after_call req t' w)))
                      = slept w
               end).
  { destruct (retry_spec self attempt (after_call req t' w)) as [_ Hc].
    destruct (retry self attempt (after_call req t' w)) as [[c | e] w1];
      simpl in *.
    - rewrite (Hc c eq_refl). exact Hretry.
    - apply Hretry. }
  destruct o as [response | exc].
  - destruct (_safe_json (body response)) as [decoded | e]; [| reflexivity].
    cbv zeta. unfold handle_response.
    destruct ((200 <=? status response) && (status response <? 300)).
    + unfold bind, lift, ret.
      destruct (_normalize_success self action decoded); reflexivity.
    + destruct (retryable (_map_error (status response))
                && (attempt <? max_retries self)); [exact Hr | reflexivity].
  - destruct (is_SdkError exc); [| reflexivity].
    unfold handle_failure.
    destruct (attempt >=? max_retries self); [reflexivity | exact Hr].
Qed.

(** A call of the loop that ends has made [n >= 1] transport calls, all
    with the same request, and has slept [n - 1] times. *)
Lemma request_loop_trace self (action : string) req :
  forall (fuel : nat) (attempt : Z) w res w',
    request_loop fuel self action req attempt w = Some (res, w') ->
    exists n : nat,
      (1 <= n)%nat
      /\ calls w' = calls w ++ repeat req n
      /\ List.length (slept w') = (List.length (slept w) + (n - 1))%nat.
Proof.
  induction fuel as [| fuel IH]; intros attempt w res w' Hrun;
    [discriminate Hrun |].
  cbn [request_loop] in Hrun.
  destruct (iteration_spec self action req attempt w) as [Hcalls _].
  pose proof (iteration_slept self action req attempt w) as Hslept.
  destruct (iteration self action req attempt w) as [[[a' | value] | e] w1];
    simpl in Hcalls, Hslept.
  - destruct (IH _ _ _ _ Hrun) as (n & Hn & Hc & Hs).
    destruct Hslept as (j & _ & _ & Hs1).
    exists (S n). split; [lia |]. split.
    + rewrite Hc, Hcalls, <- app_assoc. reflexivity.
    + rewrite Hs, Hs1, length_app. simpl. lia.
  - injection Hrun as <- <-. exists 1%nat.
    split; [lia |]. split; [exact Hcalls |]. rewrite Hslept. simpl. lia.
  - injection Hrun as <- <-. exists 1%nat.
    split; [lia |]. split; [exact Hcalls |]. rewrite Hslept. simpl. lia.
Qed.

(** X1.  Every transport call of one [_request] call carries the same request:
    a POST to [base_url + path] with the three fixed headers, the encoded
    body and the configured timeout; a retry resends it unchanged. *)
Theorem request_resends_one_request :
  forall (fuel : nat) self (action path : string) (payload : option dict) w
         (encoded : option string) res w',
    encode_body (or_empty_dict payload) = Ok encoded ->
    _request fuel self action path payload w = Some (res, w') ->
    exists n : nat,
      (1 <= n)%nat
      /\ calls w' = calls w ++
           repeat {| req_method := "POST";
                     req_url := String.append (base_url self) path;
                     req_headers := [("Content-Type", "application/json");
                                     ("Accept", "application/json");
                                     ("User-Agent", user_agent self)];
                     req_body := encoded;
                     req_timeout_ms := timeout_ms self |} n.
Proof.
  intros fuel self action path payload w encoded res w' Henc Hrun.
  unfold _request in Hrun. rewrite Henc in Hrun.
  destruct (request_loop_trace _ _ _ _ _ _ _ _ Hrun) as (n & Hn & Hc & _).
  exists n. split; [exact Hn | exact Hc].
Qed.

(** X2.  One sleep separates two consecutive transport calls: a call of
    [_request] whose body encodes has slept once less than it has called
    the transport, however it ends. *)
Theorem one_sleep_between_calls :
  forall (fuel : nat) self (action path : string) (payload : option dict) w
         (encoded : option string) res w',
    encode_body (or_empty_dict payload) = Ok encoded ->
    _request fuel self action path payload w = Some (res, w') ->
    sleeps w w' = invocations w w' - 1.
Proof.
  intros fuel self action path payload w encoded res w' Henc Hrun.
  unfold _request in Hrun. rewrite Henc in Hrun.
  destruct (request_loop_trace _ _ _ _ _ _ _ _ Hrun) as (n & Hn & Hc & Hs).
  unfold sleeps, invocations.
  rewrite Hs, Hc, length_app, repeat_length. lia.
Qed.

(** X3.  With [max_retries <= 0] nothing is retried: whatever the first outcome
    of the transport, the call ends after that one transport call and
    without sleeping. *)
Theorem no_budget_means_one_call :
  forall (fuel : nat) self (action path : string) (payload : option dict) w
         (encoded : option string),
    max_retries self <= 0 ->
    encode_body (or_empty_dict payload) = Ok encoded ->
    exists res w',
      _request (S fuel) self action path payload w = Some (res, w')
      /\ calls w' = calls w ++ [build_request self path encoded]
      /\ slept w' = slept w.
Proof.
  intros fuel self action path payload w encoded Hmax Henc.
  unfold _request. rewrite Henc. cbn [request_loop].
  set (req := build_request self path encoded).
  destruct (iteration_spec self action req 0 w) as [Hcalls Hcont].
  pose proof (iteration_slept self action req 0 w) as Hslept.
  destruct (iteration self action req 0 w) as [[[a' | value] | e] w1];
    simpl in Hcalls, Hcont, Hslept.
  - destruct (Hcont a' eq_refl) as [_ Hlt]. lia.
  - exists (Ok value), w1. auto.
  - exists (Raised e), w1. auto.
Qed.

(** X4.  An exception of the transport that is no [SdkError] is neither retried
    nor wrapped: the call raises it as it is after that transport call,
    whatever budget is left. *)
Theorem foreign_exception_propagates :
  forall (fuel : nat) self (action : string) req (attempt : Z) w
         (exc : exn) (t' : T),
    request (http_client w) req = (Failed exc, t') ->
    is_SdkError exc = false ->
    request_loop (S fuel) self action req attempt w
    = Some (Raised exc, after_call req t' w).
Proof.
  intros fuel self action req attempt w exc t' Hreq Hforeign.
  cbn [request_loop]. unfold iteration.
  rewrite (http_call_spec _ _ _ _ Hreq), Hforeign. reflexivity.
Qed.

(** X5.  A response is retried only when its status is 429 or at least 500 and
    the attempt counter is below [max_retries]; the next pass then runs
    with the counter one higher. *)
Theorem only_429_and_5xx_are_retried :
  forall self (action : string) req (attempt : Z) w
         (response : HttpResponse) (t' : T) (attempt' : Z) w',
    request (http_client w) req = (Responded response, t') ->
    iteration self action req attempt w = (Ok (Continue attempt'), w') ->
    (status response = 429 \/ 500 <= status response)
    /\ attempt < max_retries self
    /\ attempt' = attempt + 1.
Proof.
  intros self action req attempt w response t' attempt' w' Hreq Hrun.
  destruct (iteration_spec self action req attempt w) as [_ Hcont].
  rewrite Hrun in Hcont. destruct (Hcont attempt' eq_refl) as [-> Hlt].
  split; [| split; [exact Hlt | reflexivity]].
  destruct (_safe_json (body response)) as [decoded | e] eqn:Hsafe;
    [| rewrite (iteration_undecodable _ _ _ _ _ _ _ _ Hreq Hsafe) in Hrun;
       discriminate Hrun].
  assert (Hdec : decodes (body response) = true)
    by (unfold decodes; now rewrite Hsafe).
  rewrite (iteration_responded _ _ _ _ _ _ _ Hreq Hdec) in Hrun.
  unfold handle_response in Hrun.
  destruct ((200 <=? status response) && (status response <? 300)).
  - unfold bind, lift, ret in Hrun.
    destruct (_normalize_success self action _); discriminate Hrun.
  - destruct (retryable (_map_error (status response))) eqn:Hretry.
    + now apply retryable_iff.
    + simpl in Hrun. discriminate Hrun.
Qed.

(** What one pass of the loop can raise: the network error or the error of
    a status, a retryable one only once the budget is spent; anything else
    is no [SdkError] (it comes from the sleep, from [float()] or from the
    transport). *)
Lemma iteration_raises self (action : string) req (attempt : Z) w (e : exn) :
  fst (iteration self action req attempt w) = Raised e ->
  (exists exc, e = ApiError "NETWORK_ERROR" (exn_text exc) None true
                            (RawException exc)
               /\ max_retries self <= attempt)
  \/ (exists (s : Z) (d : dict),
        e = ApiError (code (_map_error s))
                     (str (get d "message" (PStr "Request failed")))
                     (Some s) (retryable (_map_error s)) (RawPayload d)
        /\ (200 <=? s) && (s <? 300) = false
        /\ (retryable (_map_error s) = true -> max_retries self <= attempt))
  \/ is_SdkError e = false.
Proof.
  unfold iteration.
  destruct (request (http_client w) req) as [o t'] eqn:Hreq.
  rewrite (http_call_spec _ _ _ _ Hreq).
  assert (Hr : fst (retry self attempt (after_call req t' w)) = Raised e ->
               is_SdkError e = false).
  { pose proof (retry_slept self attempt (after_call req t' w)) as H.
    intros E. rewrite E in H. destruct H as [_ [-> | [-> | ->]]]; reflexivity. }
  destruct o as [response | exc].
  - destruct (_safe_json (body response)) as [decoded | e0] eqn:Hsafe.
    2:{ simpl. intros E. injection E as <-. right; right.
        unfold _safe_json in Hsafe.
        destruct (json_loads (body response)) as [[| | | | | | d |] | | |];
          try discriminate Hsafe; injection Hsafe as <-; reflexivity. }
    cbv zeta. unfold handle_response.
    destruct ((200 <=? status response) && (status response <? 300)) eqn:H2xx.
    + unfold bind, lift, ret.
      destruct (_normalize_success self action decoded) as [value | e'] eqn:Hnorm;
        simpl; intros E; [discriminate E |].
      injection E as ->. right; right.
      unfold _normalize_success in Hnorm.
      destruct (to_float _) as [f | e'] eqn:Hf; [discriminate Hnorm |].
      destruct (to_float_raises _ _ Hf) as [-> | [-> | ->]];
        try discriminate Hnorm.
      injection Hnorm as <-. reflexivity.
    + destruct (retryable (_map_error (status response))) eqn:Hretry; simpl.
      * destruct (attempt <? max_retries self) eqn:Hlt.
        -- intros E. right; right. now apply Hr.
        -- unfold raise; simpl. intros E. injection E as <-.
           right; left. exists (status response), decoded.
           rewrite Hretry. split; [reflexivity |]. split; [exact H2xx |].
           intros _. now apply Z.ltb_ge in Hlt.
      * unfold raise; simpl. intros E. injection E as <-.
        right; left. exists (status response), decoded.
        rewrite Hretry. split; [reflexivity |]. split; [exact H2xx |].
        intros Habs; discriminate Habs.
  - destruct (is_SdkError exc) eqn:Hsdk.
    + unfold handle_failure.
      destruct (attempt >=? max_retries self) eqn:Hge.
      * unfold raise; simpl. intros E. injection E as <-.
        left. exists exc. split; [reflexivity |]. now apply geb_true_iff.
      * intros E. right; right. now apply Hr.
    + simpl. intros E. injection E as <-. right; right. exact Hsdk.
Qed.



Lemma request_loop_retryable_error self (action : string) req :
  forall (fuel : nat) (attempt : Z) w w'
         (c m : string) (hs : option Z) (raw : raw_info),
    request_loop fuel self action req attempt w
      = Some (Raised (ApiError c m hs true raw), w') ->
    invocations w w' = Z.max (max_retries self - attempt) 0 + 1.
Proof.
  induction fuel as [| fuel IH]; intros attempt w w' c m hs raw Hrun;
    [discriminate Hrun |].
  cbn [request_loop] in Hrun.
  destruct (iteration_spec self action req attempt w) as [Hcalls Hcont].
  pose proof (iteration_raises self action req attempt w) as Hraise.
  destruct (iteration self action req attempt w) as [[[a' | value] | e1] w1];
    simpl in Hcalls, Hcont, Hraise.
  - destruct (Hcont a' eq_refl) as [-> Hlt].
    rewrite (invocations_step req w w1 w' Hcalls).
    rewrite (IH _ _ _ _ _ _ _ Hrun). lia.
  - discriminate Hrun.
  - injection Hrun as -> <-.
    assert (Hone : invocations w w1 = 1).
    { unfold invocations. rewrite Hcalls, length_app. simpl. lia. }
    rewrite Hone.
    destruct (Hraise _ eq_refl) as [(exc & _ & Hge) | [(s & d & E & _ & Hge) | H]].
    + lia.
    + injection E as _ _ _ Hretry _. symmetry in Hretry.
      specialize (Hge Hretry). lia.
    + discriminate H.
Qed.

(** X7.  An [ApiError] marked retryable reaches the caller only once the budget
    is spent: the call has then made exactly [max(max_retries, 0) + 1]
    transport calls. *)
Theorem retryable_error_means_budget_spent :
  forall (fuel : nat) self (action path : string) (payload : option dict) w w'
         (c m : string) (hs : option Z) (raw : raw_info),
    _request fuel self action path payload w
      = Some (Raised (ApiError c m hs true raw), w') ->
    invocations w w' = Z.max (max_retries self) 0 + 1.
Proof.
  intros fuel self action path payload w w' c m hs raw Hrun.
  unfold _request in Hrun.
  destruct (encode_body (or_empty_dict payload)) as [encoded | e0] eqn:Henc.
  - rewrite (request_loop_retryable_error _ _ _ _ _ _ _ _ _ _ _ Hrun).
    now rewrite Z.sub_0_r.
  - injection Hrun as E _. rewrite (encode_body_raises _ _ Henc) in E.
    discriminate E.
Qed.

(** X8.  A first response with a status in [200, 300) whose body
    [json.loads] decodes or rejects with [JSONDecodeError] ends the call at
    once, whatever [max_retries] is: one transport call, no sleep, and the
    normalized payload as result, whose [raw] is the decoded body when the
    body is a JSON object and the placeholder payload when it is not. *)
Theorem success_on_first_response :
  forall (fuel : nat) self (action path : string) (payload : option dict) w
         (encoded : option string) (response : HttpResponse) (t' : T),
    encode_body (or_empty_dict payload) = Ok encoded ->
    request (http_client w) (build_request self path encoded)
      = (Responded response, t') ->
    200 <= status response < 300 ->
    decodes (body response) = true ->
    processing_time_fits (payload_of (body response)) = true ->
    exists value,
      _request (S fuel) self action path payload w
        = Some (Ok value, after_call (build_request self path encoded) t' w)
      /\ ok value = true
      /\ raw value = payload_of (body response)
      /\ (forall d, json_loads (body response) = Decoded (PDict d) ->
            raw value = d)
      /\ (valid_json_object (body response) = false ->
          raw value = [("message", PStr "Invalid JSON response")]).
Proof.
  intros fuel self action path payload w encoded response t'
         Henc Hreq [Hlo Hhi] Hdec Hfit.
  pose proof (normalize_success_spec self action _ Hfit) as Hnorm.
  match type of Hnorm with _ = Ok ?v => exists v end.
  split; [| split; [reflexivity | split; [reflexivity | split]]].
  - unfold _request. rewrite Henc. cbn [request_loop].
    rewrite (iteration_responded _ _ _ _ _ _ _ Hreq Hdec).
    unfold handle_response.
    apply Z.leb_le in Hlo. apply Z.ltb_lt in Hhi. rewrite Hlo, Hhi. cbn.
    unfold bind, lift, ret. rewrite Hnorm. reflexivity.
  - intros d Hd. cbn. unfold payload_of, _safe_json. now rewrite Hd.
  - intros Hbad. cbn. unfold valid_json_object in Hbad.
    unfold decodes in Hdec. unfold payload_of. unfold _safe_json in *.
    destruct (json_loads (body response)) as [[| | | | | | d |] | | |];
      reflexivity || discriminate.
Qed.

(** With a base delay that is not negative and a largest delay within
    the limit of [time.sleep], every backoff sleep of a call is accepted. *)
Lemma delay_within_limit self (attempt : Z) w :
  0 <= retry_backoff_ms self ->
  retry_backoff_ms self * 2 ^ (Z.max (max_retries self) 1 - 1)
    + Z.max 0 (retry_jitter_ms self) <= sleep_max_ms ->
  0 <= attempt < max_retries self ->
  0 <= delay_ms self (attempt + 1) w <= sleep_max_ms.
Proof.
  intros Hbase Hmax [Hlo Hhi]. unfold delay_ms.
  pose proof (jitter_draw_range self w) as Hj.
  replace (Z.max 0 (attempt + 1 - 1)) with attempt by lia.
  assert (Hpow : 0 < 2 ^ attempt) by (apply Z.pow_pos_nonneg; lia).
  assert (Hmono : 2 ^ attempt <= 2 ^ (Z.max (max_retries self) 1 - 1))
    by (apply Z.pow_le_mono_r; lia).
  split; [nia |].
  assert (retry_backoff_ms self * 2 ^ attempt
          <= retry_backoff_ms self * 2 ^ (Z.max (max_retries self) 1 - 1))
    by (apply Z.mul_le_mono_nonneg_l; assumption).
  lia.
Qed.

(** The loop body on a response that decodes and is not retried (its
    status is not retryable, or the budget is spent): the [ApiError] of
    that status. *)
Lemma final_response_raises self (action : string) req (fuel : nat)
    (attempt : Z) w (response : HttpResponse) (t' : T) :
  request (http_client w) req = (Responded response, t') ->
  decodes (body response) = true ->
  (200 <=? status response) && (status response <? 300) = false ->
  retryable (_map_error (status response)) && (attempt <? max_retries self)
    = false ->
  request_loop (S fuel) self action req attempt w =
  Some (Raised (ApiError (code (_map_error (status response)))
                         (str (get (payload_of (body response)) "message"
                                   (PStr "Request failed")))
                         (Some (status response))
                         (retryable (_map_error (status response)))
                         (RawPayload (payload_of (body response)))),
        after_call req t' w).
Proof.
  intros Hreq Hdec H2xx Hstop. cbn [request_loop].
  rewrite (iteration_responded _ _ _ _ _ _ _ Hreq Hdec).
  unfold handle_response. rewrite H2xx, Hstop. reflexivity.
Qed.

(** X10.  A transport that answers every call with a 429 or a status
    from 500 up and a body that [json.loads] decodes or rejects with
    [JSONDecodeError], and delays that [time.sleep] accepts throughout:
    the call uses up its budget and raises the [ApiError] of the response
    to its last transport call, marked retryable, after
    [max(max_retries - attempt, 0) + 1] transport calls. *)
Theorem persistent_status_exhausts_budget :
  forall self (action : string) req,
    (forall t : T, exists response t',
        request t req = (Responded response, t')
        /\ (status response = 429 \/ 500 <= status response)
        /\ decodes (body response) = true) ->
    0 <= retry_backoff_ms self ->
    retry_backoff_ms self * 2 ^ (Z.max (max_retries self) 1 - 1)
      + Z.max 0 (retry_jitter_ms self) <= sleep_max_ms ->
    forall (fuel : nat) (attempt : Z) w,
      0 <= attempt ->
      (Z.to_nat (max_retries self - attempt) < fuel)%nat ->
      exists response w' (last : T),
        request_loop fuel self action req attempt w =
        Some (Raised (ApiError (code (_map_error (status response)))
                               (str (get (payload_of (body response)) "message"
                                         (PStr "Request failed")))
                               (Some (status response)) true
                               (RawPayload (payload_of (body response)))), w')
        /\ (status response = 429 \/ 500 <= status response)
        /\ request last req = (Responded response, http_client w')
        /\ calls w' = calls w
                      ++ repeat req (Z.to_nat
                                       (Z.max (max_retries self - attempt) 0 + 1))
        /\ invocations w w' = Z.max (max_retries self - attempt) 0 + 1.
Proof.
  intros self action req Hbusy Hbase Hmax.
  induction fuel as [| fuel IH]; intros attempt w Hatt Hfuel; [lia |].
  destruct (Hbusy (http_client w)) as (response & t' & Hreq & Hstatus & Hdec).
  assert (Hretry : retryable (_map_error (status response)) = true)
    by now apply retryable_iff.
  assert (H2xx : (200 <=? status response) && (status response <? 300) = false).
  { destruct Hstatus as [-> | H5]; [reflexivity |].
    apply andb_false_iff; right. apply Z.ltb_ge. lia. }
  destruct (attempt <? max_retries self) eqn:Hlt.
  - apply Z.ltb_lt in Hlt.
    cbn [request_loop].
    rewrite (iteration_responded _ _ _ _ _ _ _ Hreq Hdec).
    unfold handle_response.
    rewrite H2xx, Hretry.
    assert (E : (attempt <? max_retries self) = true) by now apply Z.ltb_lt.
    rewrite E. cbn [andb].
    set (w1 := after_call req t' w).
    rewrite (retry_ok self attempt w1
               (delay_within_limit self attempt w1 Hbase Hmax (conj Hatt Hlt))).
    set (w2 := after_sleep (delay_ms self (attempt + 1) w1) (after_draw w1)).
    assert (Hfuel' : (Z.to_nat (max_retries self - (attempt + 1)) < fuel)%nat).
    { clear - Hfuel Hlt. lia. }
    destruct (IH (attempt + 1) w2)
      as (final & w' & last & Hrun & Hfinal & Hlast & Hcalls & Hinv);
      [lia | exact Hfuel' |].
    exists final, w', last. split; [exact Hrun |]. split; [exact Hfinal |].
    split; [exact Hlast |]. split.
    + rewrite Hcalls. change (calls w2) with (calls w ++ [req]).
      rewrite <- app_assoc. f_equal.
      replace (Z.to_nat (Z.max (max_retries self - attempt) 0 + 1))
        with (S (Z.to_nat (Z.max (max_retries self - (attempt + 1)) 0 + 1)))
        by lia.
      reflexivity.
    + rewrite (invocations_step req w w2 w') by reflexivity.
      rewrite Hinv. lia.
  - exists response, (after_call req t' w), (http_client w).
    rewrite (final_response_raises self action req fuel attempt w response t'
               Hreq Hdec H2xx) by (now rewrite Hlt, andb_false_r).
    rewrite Hretry. split; [reflexivity |]. split; [exact Hstatus |].
    split; [exact Hreq |]. apply Z.ltb_ge in Hlt. split.
    + replace (Z.to_nat (Z.max (max_retries self - attempt) 0 + 1))
        with 1%nat by lia.
      reflexivity.
    + rewrite invocations_after_call. lia.
Qed.

(** X11.  Where the message of a status error comes from, for a response
    whose body [json.loads] decodes or rejects with [JSONDecodeError]: the
    placeholder text when the body is no JSON object, the default text
    when the object has no [message], and otherwise [str()] of that entry. *)
Theorem status_error_message_source :
  forall self (action : string) req (fuel : nat) (attempt : Z) w
         (response : HttpResponse) (t' : T),
    request (http_client w) req = (Responded response, t') ->
    decodes (body response) = true ->
    (200 <=? status response) && (status response <? 300) = false ->
    retryable (_map_error (status response)) && (attempt <? max_retries self)
      = false ->
    exists m : string,
      request_loop (S fuel) self action req attempt w =
      Some (Raised (ApiError (code (_map_error (status response))) m
                             (Some (status response))
                             (retryable (_map_error (status response)))
                             (RawPayload (payload_of (body response)))),
            after_call req t' w)
      /\ (valid_json_object (body response) = false ->
          m = "Invalid JSON response"
          /\ payload_of (body response)
             = [("message", PStr "Invalid JSON response")])
      /\ (forall d, json_loads (body response) = Decoded (PDict d) ->
            lookup "message" d = None -> m = "Request failed")
      /\ (forall d v, json_loads (body response) = Decoded (PDict d) ->
            lookup "message" d = Some v -> m = str v).
Proof.
  intros self action req fuel attempt w response t' Hreq Hdec H2xx Hstop.
  eexists.
  split; [exact (final_response_raises _ _ _ _ _ _ _ _ Hreq Hdec H2xx Hstop) |].
  split; [| split].
  - intros Hbad. unfold valid_json_object in Hbad. unfold decodes in Hdec.
    unfold payload_of. unfold _safe_json in *.
    destruct (json_loads (body response)) as [[| | | | | | d |] | | |];
      (split; reflexivity) || discriminate.
  - intros d Hd Hnone. unfold payload_of, _safe_json, get.
    now rewrite Hd, Hnone.
  - intros d v Hd Hsome. unfold payload_of, _safe_json, get.
    now rewrite Hd, Hsome.
Qed.

(** X12.  [_normalize_success] raises nothing but [OverflowError], and only on a
    payload whose [processing_time_ms] is an integer; a result it returns
    has [ok = True] and the payload, unchanged, as [raw]. *)
Theorem normalize_success_outcomes :
  forall self (action : string) (payload : dict),
    match _normalize_success self action payload with
    | Raised e =>
        e = OverflowError
        /\ exists n : Z, lookup "processing_time_ms" payload = Some (PInt n)
    | Ok value => ok value = true /\ raw value = payload
    end.
Proof.
  intros self action payload. unfold _normalize_success.
  destruct (to_float (get payload "processing_time_ms" (PFloat float_zero)))
    as [f | e] eqn:Hf; [split; reflexivity |].
  destruct (to_float_raises _ _ Hf) as [-> | [-> | ->]];
    try (split; reflexivity).
  split; [reflexivity |].
  unfold get in Hf.
  destruct (lookup "processing_time_ms" payload) as [v |]; [| discriminate Hf].
  destruct v as [| b | n | f | s | l | d | id]; simpl in Hf;
    try discriminate Hf.
  - destruct b; vm_compute in Hf; discriminate Hf.
  - now exists n.
  - destruct (float_of_str s); discriminate Hf.
Qed.

(* ----------------------------------------------------------------- *)
(** *** The time a call sleeps *)

Lemma total_after_sleep (l : list Z) (d : Z) :
  fold_right Z.add 0 (l ++ [d]) = fold_right Z.add 0 l + d.
Proof.
  induction l as [| x l IH]; simpl; [lia |]. rewrite IH. lia.
Qed.

Lemma request_loop_total_slept self (action : string) req :
  0 <= retry_backoff_ms self ->
  forall (fuel : nat) (attempt : Z) w res w',
    0 <= attempt ->
    request_loop fuel self action req attempt w = Some (res, w') ->
    0 <= total_slept w' - total_slept w
      <= retry_backoff_ms self
           * (2 ^ Z.max (max_retries self) attempt - 2 ^ attempt)
         + (Z.max (max_retries self) attempt - attempt)
           * Z.max 0 (retry_jitter_ms self).
Proof.
  intros Hbase.
  induction fuel as [| fuel IH]; intros attempt w res w' Hatt Hrun;
    [discriminate Hrun |].
  cbn [request_loop] in Hrun.
  destruct (iteration_spec self action req attempt w) as [_ Hcont].
  pose proof (iteration_slept self action req attempt w) as Hslept.
  assert (Hzero : forall w1 : @World T, slept w1 = slept w ->
            0 <= total_slept w1 - total_slept w
              <= retry_backoff_ms self
                   * (2 ^ Z.max (max_retries self) attempt - 2 ^ attempt)
                 + (Z.max (max_retries self) attempt - attempt)
                   * Z.max 0 (retry_jitter_ms self)).
  { intros w1 E. unfold total_slept. rewrite E.
    assert (2 ^ attempt <= 2 ^ Z.max (max_retries self) attempt)
      by (apply Z.pow_le_mono_r; lia).
    nia. }
  destruct (iteration self action req attempt w) as [[[a' | value] | e] w1];
    simpl in Hcont, Hslept.
  - destruct (Hcont a' eq_refl) as [-> Hlt].
    destruct Hslept as (j & Hj & Hd & Hs).
    assert (Hnext : 0 <= attempt + 1) by lia.
    specialize (IH (attempt + 1) w1 res w' Hnext Hrun).
    assert (Hw1 : total_slept w1
                  = total_slept w + (retry_backoff_ms self * 2 ^ attempt + j)).
    { unfold total_slept. rewrite Hs, total_after_sleep.
      now rewrite Z.max_r by lia. }
    rewrite Z.max_r in Hd by lia.
    replace (Z.max (max_retries self) (attempt + 1)) with (max_retries self)
      in IH by lia.
    replace (Z.max (max_retries self) attempt) with (max_retries self) by lia.
    rewrite Z.pow_add_r, Z.pow_1_r in IH by lia.
    set (P := 2 ^ attempt) in *. set (Q := 2 ^ max_retries self) in *.
    set (J := Z.max 0 (retry_jitter_ms self)) in *.
    nia.
  - injection Hrun as _ <-. now apply Hzero.
  - injection Hrun as _ <-. now apply Hzero.
Qed.

(** X13.  With a base delay that is not negative, the time one [_request] call
    sleeps is at most [retry_backoff_ms * (2^k - 1) + k * max(0,
    retry_jitter_ms)] milliseconds, where [k = max(max_retries, 0)] is the
    number of retries allowed. *)
Theorem total_sleep_is_bounded :
  forall (fuel : nat) self (action path : string) (payload : option dict) w
         res w',
    0 <= retry_backoff_ms self ->
    _request fuel self action path payload w = Some (res, w') ->
    0 <= total_slept w' - total_slept w
      <= retry_backoff_ms self * (2 ^ Z.max (max_retries self) 0 - 1)
         + Z.max (max_retries self) 0 * Z.max 0 (retry_jitter_ms self).
Proof.
  intros fuel self action path payload w res w' Hbase Hrun.
  unfold _request in Hrun.
  destruct (encode_body (or_empty_dict payload)) as [encoded | e0].
  - pose proof (request_loop_total_slept self action _ Hbase _ 0 _ _ _
                  (Z.le_refl 0) Hrun) as H.
    rewrite Z.pow_0_r, Z.sub_0_r in H. exact H.
  - injection Hrun as _ <-.
    assert (0 < 2 ^ Z.max (max_retries self) 0)
      by (apply Z.pow_pos_nonneg; lia).
    nia.
Qed.

(* ----------------------------------------------------------------- *)
(** *** progress *)

Lemma prefix_length (n : nat) : forall s : string,
  String.length (prefix n s) = Nat.min n (String.length s).
Proof.
  unfold prefix.
  induction n as [| n IH]; intros [| c rest]; simpl; try reflexivity.
  now rewrite IH.
Qed.

Lemma prefix_is_prefix (n : nat) : forall s : string,
  exists rest, s = String.append (prefix n s) rest.
Proof.
  unfold prefix.
  induction n as [| n IH]; intros [| c rest]; simpl.
  - now exists "".
  - now exists (String c rest).
  - now exists "".
  - destruct (IH rest) as (tail & E). exists tail. now rewrite <- E.
Qed.

(** The message [progress] sends has at most 255 characters, is the start
    of the message given, and is the message itself when that is no longer
    than 255. *)
Lemma sent_message_spec (message : option string) :
  (String.length (sent_message message) <= 255)%nat
  /\ (exists rest,
        or_empty message = String.append (sent_message message) rest)
  /\ ((String.length (or_empty message) <= 255)%nat ->
      sent_message message = or_empty message).
Proof.
  unfold sent_message.
  destruct (255 <? String.length (or_empty message))%nat eqn:Hlong.
  - apply Nat.ltb_lt in Hlong. split; [| split].
    + rewrite prefix_length. lia.
    + apply prefix_is_prefix.
    + lia.
  - apply Nat.ltb_ge in Hlong. split; [exact Hlong |]. split.
    + exists "". clear. induction (or_empty message) as [| c s IH];
        simpl; [reflexivity | now rewrite <- IH].
    + reflexivity.
Qed.

Lemma request_with_message self (action path m : string) (fuel : nat) w res w' :
  _request fuel self action path (Some [("message", PStr m)]) w
    = Some (res, w') ->
  exists n : nat,
    calls w' = calls w ++
      repeat (build_request self path
                (Some (json_text (PDict [("message", PStr m)])))) n.
Proof.
  intros Hrun. unfold _request in Hrun. cbn in Hrun.
  destruct (request_loop_trace _ _ _ _ _ _ _ _ Hrun) as (n & _ & Hc & _).
  now exists n.
Qed.

(** X14.  Whatever its input, every request [progress] sends has a body, the
    JSON text of [{"message": m}] with [m] of at most 255 characters; a
    call that is rejected sends nothing. *)
Theorem progress_sends_bounded_message :
  forall (fuel : nat) self (input : ProgressInput) (message : option string)
         w res w',
    progress fuel self input message w = Some (res, w') ->
    exists (path m : string) (n : nat),
      (String.length m <= 255)%nat
      /\ calls w' = calls w ++
           repeat (build_request self path
                     (Some (json_text (PDict [("message", PStr m)])))) n.
Proof.
  intros fuel self input message w res w' Hrun.
  assert (Hnone : forall e, Some (Raised e, w) = Some (res, w') ->
            exists (path m : string) (n : nat),
              (String.length m <= 255)%nat
              /\ calls w' = calls w ++
                   repeat (build_request self path
                             (Some (json_text (PDict [("message", PStr m)])))) n).
  { intros e E. injection E as _ <-. exists "", "", O.
    split; [simpl; lia | now rewrite app_nil_r]. }
  unfold progress in Hrun.
  destruct (resolve_progress input message) as [[[k |] msg] | e] eqn:Hres.
  - destruct (seq_negative k); [exact (Hnone _ Hrun) |].
    destruct (request_with_message _ _ _ _ _ _ _ _ Hrun) as (n & Hc).
    eexists; exists (sent_message msg), n.
    split; [apply sent_message_spec | exact Hc].
  - assert (Hbody : match input with
                    | Seq n => setitem [("message", PStr (sent_message msg))]
                                       "progress" (PInt n)
                    | Flag b => setitem [("message", PStr (sent_message msg))]
                                        "progress" (PBool b)
                    | _ => [("message", PStr (sent_message msg))]
                    end = [("message", PStr (sent_message msg))]).
    { destruct input;
        [discriminate Hres | discriminate Hres | reflexivity | reflexivity]. }
    cbv zeta in Hrun. fold (sent_message msg) in Hrun. rewrite Hbody in Hrun.
    destruct (request_with_message _ _ _ _ _ _ _ _ Hrun) as (n & Hc).
    eexists; exists (sent_message msg), n.
    split; [apply sent_message_spec | exact Hc].
  - exact (Hnone _ Hrun).
Qed.

(** X15.  When the options carry a [message] entry, the [message] argument of
    [progress] plays no part. *)
Theorem options_message_overrides_argument :
  forall (fuel : nat) self (d : dict) (v : pyval) (m1 m2 : option string) w,
    lookup "message" d = Some v ->
    progress fuel self (Options d) m1 w = progress fuel self (Options d) m2 w.
Proof.
  intros fuel self d v m1 m2 w Hmsg.
  unfold progress, resolve_progress.
  assert (E : forall m, get d "message" (PStr (or_empty m)) = v)
    by (intros m; unfold get; now rewrite Hmsg).
  now rewrite (E m1), (E m2).
Qed.

(** X16.  The options form of [progress] comes down to the other two: with no
    [seq] entry (or [None]) it behaves as a call without sequence number,
    with one it behaves as the bare integer [int(seq)], in both cases with
    the message the options resolve to; a [seq] that [int()] rejects raises
    that error before any transport call. *)
Theorem options_reduce_to_integer_form :
  forall (fuel : nat) self (d : dict) (message : option string) w,
    let resolved := Some (str (get d "message" (PStr (or_empty message)))) in
    match get d "seq" PNone with
    | PNone =>
        progress fuel self (Options d) message w
        = progress fuel self NoInput resolved w
    | v =>
        match to_int v with
        | Ok n => progress fuel self (Options d) message w
                  = progress fuel self (Seq n) resolved w
        | Raised e => progress fuel self (Options d) message w
                      = Some (Raised e, w)
        end
    end.
Proof.
  intros fuel self d message w resolved.
  unfold progress, resolve_progress.
  destruct (get d "seq" PNone) as [| b | n | f | s | l | d' | id];
    try reflexivity;
    match goal with
    | |- context [to_int ?v] => destruct (to_int v); reflexivity
    end.
Qed.

(* ----------------------------------------------------------------- *)
(** *** end, success and fail *)

(** X17.  A status that, trimmed and lower-cased, is neither [success] nor
    [fail] makes [end] raise [ValidationError] with the world untouched:
    the transport is not called. *)
Theorem end_rejects_unknown_status :
  forall (fuel : nat) self (status : string) w,
    lower (strip status) <> "success" ->
    lower (strip status) <> "fail" ->
    end_ fuel self status w
    = Some (Raised (ValidationError status_error_message), w).
Proof.
  intros fuel self status w Hs Hf. unfold end_.
  apply String.eqb_neq in Hs. apply String.eqb_neq in Hf.
  now rewrite Hs, Hf.
Qed.

(** X18.  [end] looks at the status trimmed and lower-cased: a status that comes
    down to [success] does what [success()] does, one that comes down to
    [fail] what [fail()] does, and the path ends in the normalized word,
    not in the status as given. *)
Theorem end_normalizes_status :
  forall (fuel : nat) self (status : string) w,
    (lower (strip status) = "success" ->
       end_ fuel self status w = success fuel self w
       /\ success fuel self w =
          _request fuel self "end"
            (String.append "/ping/" (String.append (job_key self) "/end/success"))
            None w)
    /\ (lower (strip status) = "fail" ->
        end_ fuel self status w = fail fuel self w
        /\ fail fuel self w =
           _request fuel self "end"
             (String.append "/ping/" (String.append (job_key self) "/end/fail"))
             None w).
Proof.
  intros fuel self status w. split; intros E; unfold success, fail, end_;
    rewrite E; split; reflexivity.
Qed.

(** X19.  [ping], [start] and [end] send no body: every transport call they make
    is the request without body to their path. *)
Theorem lifecycle_calls_send_no_body :
  forall (fuel : nat) self (status : string) w res w',
    (ping fuel self w = Some (res, w') ->
       exists n : nat,
         calls w' = calls w ++
           repeat (build_request self
                     (String.append "/ping/" (job_key self)) None) n)
    /\ (start fuel self w = Some (res, w') ->
        exists n : nat,
          calls w' = calls w ++
            repeat (build_request self
                      (String.append "/ping/"
                         (String.append (job_key self) "/start")) None) n)
    /\ (end_ fuel self status w = Some (res, w') ->
        exists n : nat,
          calls w' = calls w ++
            repeat (build_request self
                      (String.append "/ping/"
                         (String.append (job_key self)
                            (String.append "/end/" (lower (strip status)))))
                      None) n).
Proof.
  intros fuel self status w res w'.
  assert (H : forall action path,
            _request fuel self action path None w = Some (res, w') ->
            exists n : nat,
              calls w' = calls w ++ repeat (build_request self path None) n).
  { intros action path Hrun. unfold _request in Hrun. cbn in Hrun.
    destruct (request_loop_trace _ _ _ _ _ _ _ _ Hrun) as (n & _ & Hc & _).
    now exists n. }
  split; [| split].
  - apply H.
  - apply H.
  - unfold end_. destruct (negb _).
    + intros E. injection E as _ <-. exists O. now rewrite app_nil_r.
    + apply H.
Qed.

(* ----------------------------------------------------------------- *)
(** *** Construction *)

Lemma rstrip_slash_no_trailing (s : string) :
  ends_with_slash (rstrip_slash s) = false.
Proof.
  induction s as [| c rest IH]; simpl; [reflexivity |].
  destruct (rstrip_slash rest) as [| c' rest'] eqn:E.
  - destruct (Ascii.eqb c "/") eqn:Hc; simpl; [reflexivity | exact Hc].
  - exact IH.
Qed.

Lemma rstrip_slash_removes_slashes (s : string) :
  exists n : nat,
    s = String.append (rstrip_slash s) (string_of_list_ascii (repeat "/"%char n)).
Proof.
  induction s as [| c rest IH]; simpl; [now exists O |].
  destruct IH as (n & E).
  destruct (rstrip_slash rest) as [| c' rest'] eqn:Hr.
  - simpl in E. destruct (Ascii.eqb_spec c "/") as [-> | Hc].
    + exists (S n). simpl. now rewrite <- E.
    + exists n. simpl. now rewrite <- E.
  - exists n. simpl. simpl in E. now rewrite <- E.
Qed.


(** X20.  What holds of every client that [__init__] returns: its job key is
    the one given and is 8 ASCII letters or digits, its base URL is the
    configured one with the slashes at its end removed, so it ends in
    none, and the world is as it was. *)
Theorem init_invariants :
  forall (key : string) (options : option dict) (w : @World T) self w',
    __init__ key options w = (Ok self, w') ->
    w' = w
    /\ job_key self = key
    /\ job_key_ok (job_key self) = true
    /\ ends_with_slash (base_url self) = false
    /\ exists n : nat,
         str (get (or_empty_dict options) "base_url" (PStr "https://cronbeats.io"))
         = String.append (base_url self)
                         (string_of_list_ascii (repeat "/"%char n)).
Proof.
  intros key options w self w'. unfold __init__, bind, lift, ret.
  rewrite assert_job_key_spec.
  destruct (job_key_ok key) eqn:Hkey; [| intros E; discriminate E].
  destruct (to_int (get (or_empty_dict options) "timeout_ms" (PInt 5000)));
    [| intros E; discriminate E].
  destruct (to_int (get (or_empty_dict options) "max_retries" (PInt 2)));
    [| intros E; discriminate E].
  destruct (to_int (get (or_empty_dict options) "retry_backoff_ms" (PInt 250)));
    [| intros E; discriminate E].
  destruct (to_int (get (or_empty_dict options) "retry_jitter_ms" (PInt 100)));
    [| intros E; discriminate E].
  intros E. injection E as <- <-. cbn.
  split; [reflexivity |]. split; [reflexivity |]. split; [exact Hkey |].
  split; [apply rstrip_slash_no_trailing | apply rstrip_slash_removes_slashes].
Qed.


End Further.

(* ================================================================= *)
(** ** The further properties at concrete inputs *)

Section FurtherConcrete.
Import Stub.
#[local] Existing Instance sample_runtime.

(** The run of the 429-then-200 script that the lemmas below look at. *)
Lemma run_429_then_200 :
  exists res w',
    _request 3 (sample_client 2 1 0) "ping" "/ping/abc123de" None
             world_429_then_200 = Some (res, w').
Proof. do 2 eexists; vm_compute; reflexivity. Defined.

Lemma request_resends_one_request_witness :
  encode_body (or_empty_dict None) = Ok None
  /\ exists (w' : @World StubHttpClient) (n : nat),
       (1 <= n)%nat
       /\ calls w' = calls world_429_then_200
                     ++ repeat (ping_request (sample_client 2 1 0)) n.
Proof.
  split; [reflexivity |].
  destruct run_429_then_200 as (res & w' & Hrun).
  destruct (request_resends_one_request 3 (sample_client 2 1 0) "ping"
              "/ping/abc123de" None world_429_then_200 None res w'
              eq_refl Hrun) as (n & Hn & Hc).
  exists w', n. split; [exact Hn | exact Hc].
Defined.

Lemma one_sleep_between_calls_witness :
  encode_body (or_empty_dict None) = Ok None
  /\ exists w', sleeps world_429_then_200 w'
                = invocations world_429_then_200 w' - 1.
Proof.
  split; [reflexivity |].
  destruct run_429_then_200 as (res & w' & Hrun).
  exists w'.
  exact (one_sleep_between_calls 3 (sample_client 2 1 0) "ping"
           "/ping/abc123de" None world_429_then_200 None res w' eq_refl Hrun).
Defined.

Lemma no_budget_means_one_call_witness :
  max_retries (sample_client 0 250 100) <= 0
  /\ encode_body (or_empty_dict None) = Ok None
  /\ exists res w',
       _request 1 (sample_client 0 250 100) "ping" "/ping/abc123de" None
                world_429_then_200 = Some (res, w')
       /\ calls w' = [ping_request (sample_client 0 250 100)]
       /\ slept w' = [].
Proof.
  assert (H : max_retries (sample_client 0 250 100) <= 0)
    by (vm_compute; discriminate).
  split; [exact H |]. split; [reflexivity |].
  exact (no_budget_means_one_call 0 (sample_client 0 250 100) "ping"
           "/ping/abc123de" None world_429_then_200 None H eq_refl).
Defined.

Lemma foreign_exception_propagates_witness :
  request (http_client broken_world) (ping_request (sample_client 2 1 0))
  = (Failed ValueError, {| broken_calls := 1 |})
  /\ is_SdkError ValueError = false
  /\ request_loop 1 (sample_client 2 1 0) "ping"
       (ping_request (sample_client 2 1 0)) 0 broken_world
     = Some (Raised ValueError,
             after_call (ping_request (sample_client 2 1 0))
                        {| broken_calls := 1 |} broken_world).
Proof.
  split; [reflexivity |]. split; [reflexivity |].
  exact (foreign_exception_propagates 0 (sample_client 2 1 0) "ping"
           (ping_request (sample_client 2 1 0)) 0 broken_world ValueError
           {| broken_calls := 1 |} eq_refl eq_refl).
Defined.

Lemma only_429_and_5xx_are_retried_witness :
  request (http_client busy_world) (ping_request (sample_client 2 1 0))
  = (Responded (respond 503 "{}"), {| busy_calls := 1 |})
  /\ (exists w', iteration (sample_client 2 1 0) "ping"
                   (ping_request (sample_client 2 1 0)) 0 busy_world
                 = (Ok (Continue 1), w'))
  /\ (503 = 429 \/ 500 <= 503)
  /\ 0 < max_retries (sample_client 2 1 0).
Proof.
  assert (Hrun : exists w', iteration (sample_client 2 1 0) "ping"
                   (ping_request (sample_client 2 1 0)) 0 busy_world
                 = (Ok (Continue 1), w'))
    by (eexists; vm_compute; reflexivity).
  assert (Hreq : request (http_client busy_world)
                   (ping_request (sample_client 2 1 0))
                 = (Responded (respond 503 "{}"), {| busy_calls := 1 |}))
    by reflexivity.
  split; [exact Hreq |]. split; [exact Hrun |].
  destruct Hrun as (w' & Hrun).
  destruct (only_429_and_5xx_are_retried (sample_client 2 1 0) "ping"
              (ping_request (sample_client 2 1 0)) 0 busy_world
              (respond 503 "{}") {| busy_calls := 1 |} 1 w' Hreq Hrun)
    as (Hs & Hlt & _).
  split; [exact Hs | exact Hlt].
Defined.


Lemma retryable_error_means_budget_spent_witness :
  exists (c m : string) (hs : option Z) (raw : raw_info) w',
    _request 3 (sample_client 2 1 0) "ping" "/ping/abc123de" None dead_world
    = Some (Raised (ApiError c m hs true raw), w')
    /\ invocations dead_world w' = Z.max (max_retries (sample_client 2 1 0)) 0 + 1.
Proof.
  assert (Hrun : exists (c m : string) (hs : option Z) (raw : raw_info) w',
            _request 3 (sample_client 2 1 0) "ping" "/ping/abc123de" None
                     dead_world = Some (Raised (ApiError c m hs true raw), w'))
    by (do 5 eexists; vm_compute; reflexivity).
  destruct Hrun as (c & m & hs & raw & w' & Hrun).
  exists c, m, hs, raw, w'. split; [exact Hrun |].
  exact (retryable_error_means_budget_spent 3 (sample_client 2 1 0) "ping"
           "/ping/abc123de" None dead_world w' c m hs raw Hrun).
Defined.

Lemma success_on_first_response_witness :
  encode_body (or_empty_dict None) = Ok None
  /\ 200 <= status (respond 200 success_text) < 300
  /\ decodes (body (respond 200 success_text)) = true
  /\ processing_time_fits (payload_of (body (respond 200 success_text))) = true
  /\ exists value w',
       _request 1 (sample_client 2 250 100) "ping" "/ping/abc123de" None
                (stub_world [respond 200 success_text] 0) = Some (Ok value, w')
       /\ ok value = true
       /\ raw value = success_payload.
Proof.
  assert (Hs : 200 <= status (respond 200 success_text) < 300)
    by (cbn; lia).
  assert (Hreq : request (http_client (stub_world [respond 200 success_text] 0))
                   (build_request (sample_client 2 250 100) "/ping/abc123de" None)
                 = (Responded (respond 200 success_text),
                    stub_after (stub_world [respond 200 success_text] 0)
                               (ping_request (sample_client 2 250 100))))
    by reflexivity.
  assert (Hdec : decodes (body (respond 200 success_text)) = true)
    by (vm_compute; reflexivity).
  assert (Hfit : processing_time_fits
                   (payload_of (body (respond 200 success_text))) = true)
    by (vm_compute; reflexivity).
  assert (Hloads : json_loads (body (respond 200 success_text))
                   = Decoded (PDict success_payload))
    by (vm_compute; reflexivity).
  split; [reflexivity |]. split; [exact Hs |]. split; [exact Hdec |].
  split; [exact Hfit |].
  destruct (success_on_first_response 0 (sample_client 2 250 100) "ping"
              "/ping/abc123de" None (stub_world [respond 200 success_text] 0)
              None (respond 200 success_text) _ eq_refl Hreq Hs Hdec Hfit)
    as (value & Hrun & Hok & _ & Hraw & _).
  exists value. eexists. split; [exact Hrun |]. split; [exact Hok |].
  exact (Hraw success_payload Hloads).
Defined.


Lemma persistent_status_exhausts_budget_witness :
  (forall t : BusyHttpClient, exists response t',
      request t (ping_request (sample_client 2 1 0)) = (Responded response, t')
      /\ (status response = 429 \/ 500 <= status response)
      /\ decodes (body response) = true)
  /\ 0 <= retry_backoff_ms (sample_client 2 1 0)
  /\ exists response w',
       request_loop 3 (sample_client 2 1 0) "ping"
         (ping_request (sample_client 2 1 0)) 0 busy_world
       = Some (Raised (ApiError (code (_map_error (status response)))
                                (str (get (payload_of (body response)) "message"
                                          (PStr "Request failed")))
                                (Some (status response)) true
                                (RawPayload (payload_of (body response)))), w')
       /\ (status response = 429 \/ 500 <= status response)
       /\ invocations busy_world w' = 3.
Proof.
  assert (Hbusy : forall t : BusyHttpClient, exists response t',
             request t (ping_request (sample_client 2 1 0))
             = (Responded response, t')
             /\ (status response = 429 \/ 500 <= status response)
             /\ decodes (body response) = true).
  { intros t. do 2 eexists. split; [reflexivity |]. split.
    - right. vm_compute. discriminate.
    - vm_compute. reflexivity. }
  assert (Hbase : 0 <= retry_backoff_ms (sample_client 2 1 0))
    by (vm_compute; discriminate).
  assert (Hmax : retry_backoff_ms (sample_client 2 1 0)
                 * 2 ^ (Z.max (max_retries (sample_client 2 1 0)) 1 - 1)
                 + Z.max 0 (retry_jitter_ms (sample_client 2 1 0))
                 <= sleep_max_ms)
    by (vm_compute; discriminate).
  assert (Hfuel : (Z.to_nat (max_retries (sample_client 2 1 0) - 0) < 3)%nat)
    by (vm_compute; repeat constructor).
  split; [exact Hbusy |]. split; [exact Hbase |].
  destruct (persistent_status_exhausts_budget (sample_client 2 1 0) "ping"
              (ping_request (sample_client 2 1 0)) Hbusy Hbase Hmax 3%nat 0
              busy_world (Z.le_refl 0) Hfuel)
    as (response & w' & last & Hrun & Hstatus & _ & _ & Hinv).
  exists response, w'. split; [exact Hrun |]. split; [exact Hstatus | exact Hinv].
Defined.

Lemma status_error_message_source_witness :
  request (http_client world_404) (ping_request (sample_client 0 250 100))
  = (Responded (respond 404 not_found_text),
     stub_after world_404 (ping_request (sample_client 0 250 100)))
  /\ decodes (body (respond 404 not_found_text)) = true
  /\ (200 <=? 404) && (404 <? 300) = false
  /\ exists m : string,
       request_loop 1 (sample_client 0 250 100) "ping"
         (ping_request (sample_client 0 250 100)) 0 world_404
       = Some (Raised (ApiError "NOT_FOUND" m (Some 404) false
                                (RawPayload
                                   (payload_of (body (respond 404 not_found_text))))),
               after_call (ping_request (sample_client 0 250 100))
                 (stub_after world_404 (ping_request (sample_client 0 250 100)))
                 world_404)
       /\ m = "Job not found".
Proof.
  assert (Hreq : request (http_client world_404)
                   (ping_request (sample_client 0 250 100))
                 = (Responded (respond 404 not_found_text),
                    stub_after world_404
                               (ping_request (sample_client 0 250 100))))
    by reflexivity.
  assert (Hdec : decodes (body (respond 404 not_found_text)) = true)
    by (vm_compute; reflexivity).
  assert (Hloads : json_loads (body (respond 404 not_found_text))
                   = Decoded (PDict not_found_payload))
    by (vm_compute; reflexivity).
  split; [exact Hreq |]. split; [exact Hdec |]. split; [reflexivity |].
  destruct (status_error_message_source (sample_client 0 250 100) "ping"
              (ping_request (sample_client 0 250 100)) 0 0 world_404
              (respond 404 not_found_text) _ Hreq Hdec eq_refl eq_refl)
    as (m & Hrun & _ & _ & Hmsg).
  exists m. split; [exact Hrun |].
  exact (Hmsg not_found_payload (PStr "Job not found") Hloads eq_refl).
Defined.

Lemma total_sleep_is_bounded_witness :
  0 <= retry_backoff_ms (sample_client 2 1 0)
  /\ exists w' : @World DeadHttpClient,
       0 <= total_slept w' - total_slept dead_world
         <= retry_backoff_ms (sample_client 2 1 0)
              * (2 ^ Z.max (max_retries (sample_client 2 1 0)) 0 - 1)
            + Z.max (max_retries (sample_client 2 1 0)) 0
              * Z.max 0 (retry_jitter_ms (sample_client 2 1 0)).
Proof.
  assert (Hbase : 0 <= retry_backoff_ms (sample_client 2 1 0))
    by (vm_compute; discriminate).
  assert (Hrun : exists res w',
            _request 3 (sample_client 2 1 0) "ping" "/ping/abc123de" None
                     dead_world = Some (res, w'))
    by (do 2 eexists; vm_compute; reflexivity).
  destruct Hrun as (res & w' & Hrun).
  split; [exact Hbase |]. exists w'.
  exact (total_sleep_is_bounded 3 (sample_client 2 1 0) "ping" "/ping/abc123de"
           None dead_world res w' Hbase Hrun).
Defined.

Lemma progress_sends_bounded_message_witness :
  exists (w' : @World StubHttpClient) (path m : string) (n : nat),
    (String.length m <= 255)%nat
    /\ calls w' = calls (stub_world [] 0) ++
         repeat (build_request (sample_client 2 250 100) path
                   (Some (json_text (PDict [("message", PStr m)])))) n.
Proof.
  assert (Hrun : exists res w',
            progress 1 (sample_client 2 250 100)
              (Options [("seq", PInt 50); ("message", PStr long_message)])
              None (stub_world [] 0) = Some (res, w'))
    by (do 2 eexists; vm_compute; reflexivity).
  destruct Hrun as (res & w' & Hrun).
  exists w'.
  exact (progress_sends_bounded_message 1 (sample_client 2 250 100)
           (Options [("seq", PInt 50); ("message", PStr long_message)])
           None (stub_world [] 0) res w' Hrun).
Defined.

Lemma options_message_overrides_argument_witness :
  lookup "message" [("message", PStr "half way")] = Some (PStr "half way")
  /\ progress 1 (sample_client 2 250 100)
       (Options [("message", PStr "half way")]) (Some "ignored") (stub_world [] 0)
     = progress 1 (sample_client 2 250 100)
         (Options [("message", PStr "half way")]) None (stub_world [] 0).
Proof.
  split; [reflexivity |].
  exact (options_message_overrides_argument 1 (sample_client 2 250 100)
           [("message", PStr "half way")] (PStr "half way") (Some "ignored")
           None (stub_world [] 0) eq_refl).
Defined.

Lemma end_rejects_unknown_status_witness :
  lower (strip "bogus") <> "success"
  /\ lower (strip "bogus") <> "fail"
  /\ end_ 1 (sample_client 2 250 100) "bogus" (stub_world [] 0)
     = Some (Raised (ValidationError status_error_message), stub_world [] 0).
Proof.
  assert (H1 : lower (strip "bogus") <> "success")
    by (intros E; vm_compute in E; discriminate E).
  assert (H2 : lower (strip "bogus") <> "fail")
    by (intros E; vm_compute in E; discriminate E).
  split; [exact H1 |]. split; [exact H2 |].
  exact (end_rejects_unknown_status 1 (sample_client 2 250 100) "bogus"
           (stub_world [] 0) H1 H2).
Defined.

Lemma end_normalizes_status_witness :
  lower (strip "  SUCCESS ") = "success"
  /\ end_ 1 (sample_client 2 250 100) "  SUCCESS " (stub_world [] 0)
     = success 1 (sample_client 2 250 100) (stub_world [] 0).
Proof.
  assert (H : lower (strip "  SUCCESS ") = "success") by reflexivity.
  split; [exact H |].
  exact (proj1 (proj1 (end_normalizes_status 1 (sample_client 2 250 100)
                         "  SUCCESS " (stub_world [] 0)) H)).
Defined.

Lemma lifecycle_calls_send_no_body_witness :
  exists (w' : @World StubHttpClient) (n : nat),
    calls w' = calls world_404 ++
      repeat (build_request (sample_client 2 250 100)
                (String.append "/ping/" (job_key (sample_client 2 250 100)))
                None) n.
Proof.
  assert (Hrun : exists res w',
            ping 1 (sample_client 2 250 100) world_404 = Some (res, w'))
    by (do 2 eexists; vm_compute; reflexivity).
  destruct Hrun as (res & w' & Hrun).
  exists w'.
  exact (proj1 (lifecycle_calls_send_no_body 1 (sample_client 2 250 100) ""
                  world_404 res w') Hrun).
Defined.

Lemma init_invariants_witness :
  exists self,
    __init__ "abc123de" (Some [("base_url", PStr "https://example.test//")])
             (stub_world [] 0) = (Ok self, stub_world [] 0)
    /\ job_key_ok (job_key self) = true
    /\ ends_with_slash (base_url self) = false.
Proof.
  assert (Hrun : exists self,
            __init__ "abc123de"
              (Some [("base_url", PStr "https://example.test//")])
              (stub_world [] 0) = (Ok self, stub_world [] 0))
    by (eexists; vm_compute; reflexivity).
  destruct Hrun as (self & Hrun).
  exists self. split; [exact Hrun |].
  destruct (init_invariants "abc123de"
              (Some [("base_url", PStr "https://example.test//")])
              (stub_world [] 0) self (stub_world [] 0) Hrun)
    as (_ & _ & Hkey & Hslash & _).
  split; [exact Hkey | exact Hslash].
Defined.


(** A 200 whose body is an integer literal of 5000 digits, or 100000
    opening brackets: [ping()] raises what [json.loads] raised. *)
Example ping_raises_what_the_decoder_raised :
  (exists w', ping 1 (sample_client 2 250 100) world_200_long_integer
              = Some (Raised ValueError, w'))
  /\ (exists w', ping 1 (sample_client 2 250 100) world_200_deep_nesting
                 = Some (Raised RecursionError, w')).
Proof. split; eexists; vm_compute; reflexivity. Qed.

(** [progress(True)]: the path ends in the text of the bool, and the body
    has the message alone. *)
Example progress_with_a_bool :
  exists value w',
    progress 1 (sample_client 2 250 100) (Flag true) None (stub_world [] 0)
    = Some (Ok value, w')
    /\ map req_url (calls w')
       = ["https://cronbeats.io/ping/abc123de/progress/True"]
    /\ map req_body (calls w')
       = [Some (sample_json_text (PDict [("message", PStr "")]))].
Proof. do 2 eexists; repeat split; vm_compute; reflexivity. Qed.

End FurtherConcrete.
